(** * Task-management UI: session and task-synchronisation core

    A shallow embedding of the client-side logic of the task manager:
    - [App]       (session flag, logout, route guards),
    - [Login]     (remember-me prefill, credential persistence),
    - [Dashboard] (the authenticated gateway [fetchWithAuth], the task
                   collection operations and the inline edit session).

    React state is modelled by explicit state passing: every [useState]
    cell is a record field, every setter a record update.  An [async]
    handler is split at its [await] of the network: the synchronous prefix
    runs when the handler is invoked and leaves a pending request with the
    continuation to run; [deliver] settles one pending request with the
    outcome chosen by the network and runs that continuation.  No handler
    reads component state after an [await] (they only call setters), so the
    continuations never observe a stale render. *)

From Stdlib Require Import ZArith Ascii String List Bool Lia DecimalString.
From stdpp Require Import base option list strings gmap.
Import ListNotations.
Local Open Scope string_scope.
Local Open Scope list_scope.

(** ** Data model *)

(** A task object as the server sends it.  The fields [id] and [title]
    are typed as the Task API declares them.  [completed] is only ever
    compared with [true] and with [false] ([===]), so it is a boolean or
    something else ([None]: absent, [null], or any value that is not a
    boolean).  [status] is read by the component ([task.status]) but is
    not part of the declared shape, so it may be absent ([None] is
    [undefined]).  [description] is optional ([None] is [null]). *)
Record Task := {
  task_id : Z;
  task_title : string;
  task_description : option string;
  task_completed : option bool;
  task_status : option string
}.

(** A decoded JSON body.  [JArr] is an array of task objects, [JObj] any
    other object, of which only the [message] and [error] properties are
    ever read. *)
Inductive Json :=
| JNull
| JBool (b : bool)
| JNum (n : Z)
| JStr (s : string)
| JArr (l : list Task)
| JObj (message error : option string).

(** What a call of [fetchWithAuth] can resolve to. *)
Inductive Data :=
| DUndefined
| DNull
| DText (s : string)
| DJson (j : Json).

(** JavaScript truthiness, for the values that occur. *)
Definition truthy_string (s : string) : bool := negb (String.eqb s "").

Definition truthy_opt (o : option string) : bool :=
  match o with
  | Some s => truthy_string s
  | None => false
  end.

Definition truthy_id (o : option Z) : bool :=
  match o with
  | Some n => negb (n =? 0)%Z
  | None => false
  end.

Definition truthy (d : Data) : bool :=
  match d with
  | DUndefined | DNull => false
  | DText s => truthy_string s
  | DJson JNull => false
  | DJson (JBool b) => b
  | DJson (JNum n) => negb (n =? 0)%Z
  | DJson (JStr s) => truthy_string s
  | DJson (JArr _) => true
  | DJson (JObj _ _) => true
  end.

(** [a || b] on strings that may be absent. *)
Definition or_else (o : option string) (d : string) : string :=
  match o with
  | Some s => if truthy_string s then s else d
  | None => d
  end.

(** [s.includes(sub)] *)
Fixpoint includes (sub s : string) : bool :=
  String.prefix sub s ||
  match s with
  | EmptyString => false
  | String _ rest => includes sub rest
  end.

(** ** Requests and responses *)

Inductive Method := GET | POST | PUT | DELETE.

(** [`${API_BASE_URL}/tasks`] and [`${API_BASE_URL}/tasks/${id}`]. *)
Inductive Endpoint :=
| TasksUrl
| TaskUrl (id : Z).

(** The object passed to [JSON.stringify]. *)
Record TaskBody := {
  body_title : string;
  body_description : option string;
  body_completed : bool
}.

(** One call of [fetch]: [bearer] is the token placed in the
    [Authorization] header. *)
Record Request := {
  req_method : Method;
  req_url : Endpoint;
  req_bearer : string;
  req_body : option TaskBody
}.

(** The result of [response.json()]. *)
Inductive Parsed :=
| ParseError (msg : string)
| ParsedJson (j : Json).

Record Response := {
  resp_status : Z;
  resp_content_length : option string;
  resp_content_type : option string;
  resp_text : string;
  resp_json : Parsed
}.

(** [response.ok] *)
Definition resp_ok (r : Response) : bool :=
  (200 <=? resp_status r)%Z && (resp_status r <=? 299)%Z.

(** What the network does with one request: [fetch] rejects (its error
    message is given), or a response arrives. *)
Inductive NetOutcome :=
| FetchRejects (msg : string)
| Responds (r : Response).

(** How an awaited promise settles: [Rejected msg] is a thrown [Error]
    with that message. *)
Inductive Settled :=
| Resolved (d : Data)
| Rejected (msg : string).

(** ** Component state *)

(** Who awaits [fetchTasks]: the mount effect, or a handler's [try] block
    (whose [finally] still has to run afterwards). *)
Inductive Caller := FromEffect | FromHandler.

(** The continuation of a pending [await fetchWithAuth(...)]. *)
Inductive Kont :=
| KFetchTasks (c : Caller)
| KCreate
| KDelete
| KUpdate.

Record Pending := {
  p_req : Request;
  p_kont : Kont
}.

(** Everything outside the Dashboard component: the browser's
    [localStorage], the [isAuthenticated] cell of [App], the calls of
    [navigate] and of [fetch] so far (oldest first) and the requests in
    flight. *)
Record Env := {
  localStorage : gmap string string;
  isAuthenticated : bool;
  nav : list string;
  net : list Request;
  pending : list Pending
}.

(** The "Create New Task" form. *)
Record NewForm := {
  newTaskTitle : string;
  newTaskDescription : string;
  newTaskStatus : string
}.

(** The inline edit cells. *)
Record EditCells := {
  editingTaskId : option Z;
  editTaskTitle : string;
  editTaskDescription : option string;
  editTaskStatus : option string
}.

Record World := {
  env : Env;
  tasks : Data;
  isLoading : bool;
  error : option string;
  form : NewForm;
  edit : EditCells
}.

Definition no_tasks : Data := DJson (JArr []).

Definition initial_form : NewForm :=
  {| newTaskTitle := ""; newTaskDescription := ""; newTaskStatus := "PENDING" |}.

Definition initial_edit : EditCells :=
  {| editingTaskId := None; editTaskTitle := "";
     editTaskDescription := Some ""; editTaskStatus := Some "" |}.

(** A freshly mounted Dashboard in the given environment. *)
Definition mount (e : Env) : World :=
  {| env := e; tasks := no_tasks; isLoading := false; error := None;
     form := initial_form; edit := initial_edit |}.

(** *** Setters *)

Definition with_env (f : Env -> Env) (w : World) : World :=
  {| env := f (env w); tasks := tasks w; isLoading := isLoading w;
     error := error w; form := form w; edit := edit w |}.

Definition setTasks (d : Data) (w : World) : World :=
  {| env := env w; tasks := d; isLoading := isLoading w;
     error := error w; form := form w; edit := edit w |}.

Definition setIsLoading (b : bool) (w : World) : World :=
  {| env := env w; tasks := tasks w; isLoading := b;
     error := error w; form := form w; edit := edit w |}.

Definition setError (e : option string) (w : World) : World :=
  {| env := env w; tasks := tasks w; isLoading := isLoading w;
     error := e; form := form w; edit := edit w |}.

Definition with_form (f : NewForm -> NewForm) (w : World) : World :=
  {| env := env w; tasks := tasks w; isLoading := isLoading w;
     error := error w; form := f (form w); edit := edit w |}.

Definition with_edit (f : EditCells -> EditCells) (w : World) : World :=
  {| env := env w; tasks := tasks w; isLoading := isLoading w;
     error := error w; form := form w; edit := f (edit w) |}.

Definition setNewTaskTitle (s : string) : World -> World :=
  with_form (fun f => {| newTaskTitle := s;
                         newTaskDescription := newTaskDescription f;
                         newTaskStatus := newTaskStatus f |}).

Definition setNewTaskDescription (s : string) : World -> World :=
  with_form (fun f => {| newTaskTitle := newTaskTitle f;
                         newTaskDescription := s;
                         newTaskStatus := newTaskStatus f |}).

Definition setNewTaskStatus (s : string) : World -> World :=
  with_form (fun f => {| newTaskTitle := newTaskTitle f;
                         newTaskDescription := newTaskDescription f;
                         newTaskStatus := s |}).

Definition setEditingTaskId (i : option Z) : World -> World :=
  with_edit (fun c => {| editingTaskId := i;
                         editTaskTitle := editTaskTitle c;
                         editTaskDescription := editTaskDescription c;
                         editTaskStatus := editTaskStatus c |}).

Definition setEditTaskTitle (s : string) : World -> World :=
  with_edit (fun c => {| editingTaskId := editingTaskId c;
                         editTaskTitle := s;
                         editTaskDescription := editTaskDescription c;
                         editTaskStatus := editTaskStatus c |}).

Definition setEditTaskDescription (s : option string) : World -> World :=
  with_edit (fun c => {| editingTaskId := editingTaskId c;
                         editTaskTitle := editTaskTitle c;
                         editTaskDescription := s;
                         editTaskStatus := editTaskStatus c |}).

Definition setEditTaskStatus (s : option string) : World -> World :=
  with_edit (fun c => {| editingTaskId := editingTaskId c;
                         editTaskTitle := editTaskTitle c;
                         editTaskDescription := editTaskDescription c;
                         editTaskStatus := s |}).

(** *** The environment: storage, router, network *)

Definition set_storage (s : gmap string string) (e : Env) : Env :=
  {| localStorage := s; isAuthenticated := isAuthenticated e;
     nav := nav e; net := net e; pending := pending e |}.

Definition set_authenticated (b : bool) (e : Env) : Env :=
  {| localStorage := localStorage e; isAuthenticated := b;
     nav := nav e; net := net e; pending := pending e |}.

Definition set_pending (ps : list Pending) (e : Env) : Env :=
  {| localStorage := localStorage e; isAuthenticated := isAuthenticated e;
     nav := nav e; net := net e; pending := ps |}.

(** [localStorage.getItem(k)] *)
Definition getItem (k : string) (e : Env) : option string :=
  localStorage e !! k.

(** [localStorage.removeItem(k)] *)
Definition removeItem (k : string) (e : Env) : Env :=
  set_storage (delete k (localStorage e)) e.

(** [localStorage.setItem(k, v)] *)
Definition setItem (k v : string) (e : Env) : Env :=
  set_storage (<[k := v]> (localStorage e)) e.

(** [navigate(path)] *)
Definition navigate (path : string) (e : Env) : Env :=
  {| localStorage := localStorage e; isAuthenticated := isAuthenticated e;
     nav := nav e ++ [path]; net := net e; pending := pending e |}.

(** [fetch(url, ...)] with the continuation awaiting it. *)
Definition issue (r : Request) (k : Kont) (e : Env) : Env :=
  {| localStorage := localStorage e; isAuthenticated := isAuthenticated e;
     nav := nav e; net := net e ++ [r];
     pending := pending e ++ [{| p_req := r; p_kont := k |}] |}.

(** ** Dashboard: the authenticated gateway [fetchWithAuth] *)

Definition msg_no_token : string :=
  "Authentication token not found. Please login again.".
Definition msg_expired : string :=
  "Session expired or invalid. Please login again.".
Definition msg_generic : string :=
  "An error occurred during the API request.".

(** The part of [fetchWithAuth] before [await fetch]: without a token it
    sets the message, navigates and returns [undefined] ([None] here, no
    request); with one it builds the request that is handed to [fetch]. *)
Definition fetchWithAuth_call (m : Method) (u : Endpoint)
    (b : option TaskBody) (w : World) : World * option Request :=
  let token := getItem "token" (env w) in
  if negb (truthy_opt token) then
    (with_env (navigate "/login") (setError (Some msg_no_token) w), None)
  else
    (w, Some {| req_method := m; req_url := u;
                req_bearer := default "" token; req_body := b |}).

(** The [catch] block of [fetchWithAuth]: every error but one whose message
    is "Unauthorized" goes to the message slot; the error is thrown again. *)
Definition api_call_failed (msg : string) (w : World) : World * Settled :=
  (if String.eqb msg "Unauthorized" then w
   else setError (Some (or_else (Some msg) msg_generic)) w,
   Rejected msg).

Definition string_of_Z (z : Z) : string := NilZero.string_of_int (Z.to_int z).

(** The message thrown for a response that is not [ok]. *)
Definition http_error_message (r : Response) : string :=
  let errorMessage := "HTTP error! Status: " +:+ string_of_Z (resp_status r) in
  match resp_json r with
  | ParsedJson (JObj message error) =>
      or_else message (or_else error errorMessage)
  | _ => errorMessage
  end.

Definition zero_length (r : Response) : bool :=
  match resp_content_length r with
  | Some s => String.eqb s "0"
  | None => false
  end.

Definition text_plain (r : Response) : bool :=
  match resp_content_type r with
  | Some s => truthy_string s && includes "text/plain" s
  | None => false
  end.

(** The part of [fetchWithAuth] after [await fetch]. *)
Definition fetchWithAuth_settle (o : NetOutcome) (w : World)
    : World * Settled :=
  match o with
  | FetchRejects msg => api_call_failed msg w
  | Responds r =>
      if (resp_status r =? 401)%Z || (resp_status r =? 403)%Z then
        api_call_failed "Unauthorized"
          (with_env (navigate "/login")
             (with_env (removeItem "token")
                (setError (Some msg_expired) w)))
      else if negb (resp_ok r) then api_call_failed (http_error_message r) w
      else if zero_length r || (resp_status r =? 204)%Z then
        (w, Resolved DNull)
      else if text_plain r then (w, Resolved (DText (resp_text r)))
      else match resp_json r with
           | ParsedJson j => (w, Resolved (DJson j))
           | ParseError msg => api_call_failed msg w
           end
  end.

(** ** Dashboard: the task collection operations *)

(** The [finally] of the handler that awaited [fetchTasks]. *)
Definition caller_resumes (c : Caller) (w : World) : World :=
  match c with
  | FromEffect => w
  | FromHandler => setIsLoading false w
  end.

(** [fetchTasks] after its [await fetchWithAuth]. *)
Definition fetchTasks_settled (s : Settled) (w : World) : World :=
  let w := match s with
           | Resolved data =>
               if truthy data then setTasks data w else setTasks no_tasks w
           | Rejected _ => w
           end in
  setIsLoading false w.

Definition fetchTasks (c : Caller) (w : World) : World :=
  let w := setError None (setIsLoading true w) in
  match fetchWithAuth_call GET TasksUrl None w with
  | (w, Some r) => with_env (issue r (KFetchTasks c)) w
  | (w, None) => caller_resumes c (fetchTasks_settled (Resolved DUndefined) w)
  end.

Definition handleCreateTask_settled (s : Settled) (w : World) : World :=
  match s with
  | Resolved _ =>
      fetchTasks FromHandler
        (setNewTaskStatus "PENDING"
           (setNewTaskDescription "" (setNewTaskTitle "" w)))
  | Rejected _ => setIsLoading false w
  end.

Definition handleCreateTask (w : World) : World :=
  let w := setError None (setIsLoading true w) in
  let completedStatus := String.eqb (newTaskStatus (form w)) "COMPLETED" in
  let newTask := {| body_title := newTaskTitle (form w);
                    body_description := Some (newTaskDescription (form w));
                    body_completed := completedStatus |} in
  match fetchWithAuth_call POST TasksUrl (Some newTask) w with
  | (w, Some r) => with_env (issue r KCreate) w
  | (w, None) => handleCreateTask_settled (Resolved DUndefined) w
  end.

Definition handleDeleteTask_settled (s : Settled) (w : World) : World :=
  match s with
  | Resolved _ => fetchTasks FromHandler w
  | Rejected _ => setIsLoading false w
  end.

(** [confirmed] is the answer of [window.confirm]. *)
Definition handleDeleteTask (taskId : Z) (confirmed : bool) (w : World)
    : World :=
  if negb confirmed then w
  else
    let w := setError None (setIsLoading true w) in
    match fetchWithAuth_call DELETE (TaskUrl taskId) None w with
    | (w, Some r) => with_env (issue r KDelete) w
    | (w, None) => handleDeleteTask_settled (Resolved DUndefined) w
    end.

(** ** Dashboard: the edit session *)

Definition handleStartEdit (task : Task) (w : World) : World :=
  setEditTaskStatus (task_status task)
    (setEditTaskDescription (task_description task)
       (setEditTaskTitle (task_title task)
          (setEditingTaskId (Some (task_id task)) w))).

Definition handleCancelEdit (w : World) : World := setEditingTaskId None w.

(** The [if / else if / else] that maps the status choice to the flag. *)
Definition completedStatus_of (editTaskStatus : option string) : bool :=
  match editTaskStatus with
  | Some s =>
      if String.eqb s "COMPLETED" then true
      else if String.eqb s "PENDING" then false
      else false
  | None => false
  end.

Definition handleUpdateTask_settled (s : Settled) (w : World) : World :=
  match s with
  | Resolved _ => fetchTasks FromHandler (setEditingTaskId None w)
  | Rejected _ => setIsLoading false w
  end.

(** [if (!editingTaskId) return;] comes first: [null] and [0] are both
    falsy. *)
Definition handleUpdateTask (w : World) : World :=
  match editingTaskId (edit w) with
  | Some taskId =>
      if negb (truthy_id (Some taskId)) then w
      else
        let w := setError None (setIsLoading true w) in
        let updatedTask :=
          {| body_title := editTaskTitle (edit w);
             body_description := editTaskDescription (edit w);
             body_completed := completedStatus_of (editTaskStatus (edit w)) |} in
        match fetchWithAuth_call PUT (TaskUrl taskId) (Some updatedTask) w with
        | (w, Some r) => with_env (issue r KUpdate) w
        | (w, None) => handleUpdateTask_settled (Resolved DUndefined) w
        end
  | None => w
  end.

(** ** The network settles a request *)

Definition resume (k : Kont) (s : Settled) (w : World) : World :=
  match k with
  | KFetchTasks c => caller_resumes c (fetchTasks_settled s w)
  | KCreate => handleCreateTask_settled s w
  | KDelete => handleDeleteTask_settled s w
  | KUpdate => handleUpdateTask_settled s w
  end.

(** The [i]-th request in flight settles with outcome [o]: the rest of
    [fetchWithAuth] runs, then the code awaiting it.  Also reported is how
    the gateway call settled ([None]: there is no such request). *)
Definition deliver_settled (i : nat) (o : NetOutcome) (w : World)
    : World * option Settled :=
  match pending (env w) !! i with
  | None => (w, None)
  | Some p =>
      let w := with_env (fun e => set_pending (delete i (pending e)) e) w in
      let (w, s) := fetchWithAuth_settle o w in
      (resume (p_kont p) s w, Some s)
  end.

Definition deliver (i : nat) (o : NetOutcome) (w : World) : World :=
  fst (deliver_settled i o w).

(** ** Dashboard: what is rendered *)

Definition badge_completed : string := "bg-green-100 text-green-800".
Definition badge_other : string := "bg-blue-100 text-blue-800".

(** One [<li>] of the task list: title, description, the classes of the
    status badge and the text inside it ([None]: React renders nothing for
    [undefined]). *)
Record Row := {
  row_title : string;
  row_description : string;
  row_badge : string;
  row_status : option string
}.

Definition status_is (s : string) (o : option string) : bool :=
  match o with
  | Some x => String.eqb x s
  | None => false
  end.

Definition render_task (task : Task) : Row :=
  {| row_title := task_title task;
     row_description := or_else (task_description task) "No description";
     row_badge := if status_is "COMPLETED" (task_status task)
                  then badge_completed else badge_other;
     row_status := task_status task |}.

(** The three counters in the header. *)
Definition total_count (l : list Task) : nat := length l.

(** [task.completed === b] *)
Definition completed_is (b : bool) (task : Task) : bool :=
  match task_completed task with
  | Some c => Bool.eqb c b
  | None => false
  end.

Definition completed_count (l : list Task) : nat :=
  length (List.filter (completed_is true) l).

Definition pending_count (l : list Task) : nat :=
  length (List.filter (completed_is false) l).

Inductive ListView :=
| LoadingTasks
| NoTasksFound
| Rows (rows : list Row).

Definition render_list (loading : bool) (l : list Task) : ListView :=
  if loading && (length l =? 0)%nat then LoadingTasks
  else if (length l =? 0)%nat then NoTasksFound
  else Rows (map render_task l).

(** ** Dashboard: user events

    The handlers are reached through the markup.  The "+ Add Task", "Edit",
    "Delete" and "Save Changes" buttons carry [disabled={isLoading}]; the
    two title inputs carry [required], so the browser refuses to submit
    their form while the title is empty (and a form whose submit button is
    disabled is not submitted at all); the edit form exists only while
    [editingTaskId] is truthy.  The two [<select>]s offer exactly the
    options below, one of which is always selected, so that their own
    [required] never stops a submission. *)

Inductive StatusOption := OptPending | OptCompleted.

Definition option_value (o : StatusOption) : string :=
  match o with
  | OptPending => "PENDING"
  | OptCompleted => "COMPLETED"
  end.

Inductive UiEvent :=
| ChangeNewTitle (s : string)
| ChangeNewDescription (s : string)
| ChangeNewStatus (o : StatusOption)
| SubmitCreateForm
| ClickEdit (task : Task)
| ClickDelete (task : Task) (confirmed : bool)
| ChangeEditTitle (s : string)
| ChangeEditDescription (s : string)
| ChangeEditStatus (o : StatusOption)
| SubmitEditForm
| ClickCancel
| DismissError.

Definition dispatch (ev : UiEvent) (w : World) : World :=
  match ev with
  | ChangeNewTitle s => setNewTaskTitle s w
  | ChangeNewDescription s => setNewTaskDescription s w
  | ChangeNewStatus o => setNewTaskStatus (option_value o) w
  | SubmitCreateForm =>
      if isLoading w then w
      else if String.eqb (newTaskTitle (form w)) "" then w
      else handleCreateTask w
  | ClickEdit task =>
      if isLoading w then w else handleStartEdit task w
  | ClickDelete task confirmed =>
      if isLoading w then w else handleDeleteTask (task_id task) confirmed w
  | ChangeEditTitle s => setEditTaskTitle s w
  | ChangeEditDescription s => setEditTaskDescription (Some s) w
  | ChangeEditStatus o => setEditTaskStatus (Some (option_value o)) w
  | SubmitEditForm =>
      if negb (truthy_id (editingTaskId (edit w))) then w
      else if isLoading w then w
      else if String.eqb (editTaskTitle (edit w)) "" then w
      else handleUpdateTask w
  | ClickCancel => handleCancelEdit w
  | DismissError => setError None w
  end.

(** ** App: the session flag and the route guards *)

Definition updateAuthStatus (e : Env) : Env :=
  set_authenticated (truthy_opt (getItem "token" e)) e.

Definition handleLoginSuccess (e : Env) : Env :=
  navigate "/dashboard" (updateAuthStatus e).

Definition handleLogout (e : Env) : Env :=
  navigate "/login" (updateAuthStatus (removeItem "token" e)).

(** The ['storage'] listener: another tab has left the storage as [s]. *)
Definition handleStorageChange (s : gmap string string) (e : Env) : Env :=
  updateAuthStatus (set_storage s e).

Inductive Element :=
| HomePage
| LoginPage
| SignupPage
| ForgotPasswordPage
| ResetPasswordPage
| DashboardPage
| NavigateTo (path : string)
| NoMatch.

(** How React Router matches the [path] of a [<Route>] (none of them is
    declared [caseSensitive]) against the pathname of the location: the
    pattern, its trailing slashes dropped and one leading slash ensured,
    must be the whole pathname up to ASCII case and up to any number of
    trailing slashes (the regular expression [^/login\/*$] with flag [i]
    for the pattern "/login").  The patterns here are plain texts, without
    parameters or stars. *)
Definition ascii_lower (c : ascii) : ascii :=
  let n := nat_of_ascii c in
  if (65 <=? n)%nat && (n <=? 90)%nat then ascii_of_nat (n + 32) else c.

Definition is_slash (c : ascii) : bool := Ascii.eqb c "/"%char.

Fixpoint all_slashes (s : string) : bool :=
  match s with
  | EmptyString => true
  | String c rest => is_slash c && all_slashes rest
  end.

Fixpoint strip_leading_slashes (s : string) : string :=
  match s with
  | EmptyString => EmptyString
  | String c rest => if is_slash c then strip_leading_slashes rest else s
  end.

Fixpoint strip_trailing_slashes (s : string) : string :=
  match s with
  | EmptyString => EmptyString
  | String c rest =>
      if is_slash c && all_slashes rest then EmptyString
      else String c (strip_trailing_slashes rest)
  end.

Fixpoint matches_from (base pathname : string) : bool :=
  match base with
  | EmptyString => all_slashes pathname
  | String b base' =>
      match pathname with
      | EmptyString => false
      | String c pathname' =>
          Ascii.eqb (ascii_lower b) (ascii_lower c)
          && matches_from base' pathname'
      end
  end.

Definition matchPath (pattern pathname : string) : bool :=
  matches_from
    (String "/"%char (strip_leading_slashes (strip_trailing_slashes pattern)))
    pathname.

(** The [<Routes>] table.  No two of its paths match the same pathname, so
    that the ranking of the routes plays no part. *)
Definition route (path : string) (authenticated : bool) : Element :=
  if matchPath "/" path then HomePage
  else if matchPath "/login" path then
    (if authenticated then NavigateTo "/dashboard" else LoginPage)
  else if matchPath "/signup" path then SignupPage
  else if matchPath "/forgot-password" path then ForgotPasswordPage
  else if matchPath "/reset-password" path then ResetPasswordPage
  else if matchPath "/dashboard" path then
    (if authenticated then DashboardPage else NavigateTo "/login")
  else NoMatch.

(** The page shown for [path], a [<Navigate>] followed once. *)
Definition page_shown (path : string) (authenticated : bool) : Element :=
  match route path authenticated with
  | NavigateTo target => route target authenticated
  | el => el
  end.

(** ** Login: remember-me *)

Record LoginState := {
  email : string;
  password : string;
  rememberMe : bool;
  login_error : option string
}.

Definition Login_initial : LoginState :=
  {| email := ""; password := ""; rememberMe := false; login_error := None |}.

(** The mount effect of [Login]. *)
Definition Login_mount (e : Env) : LoginState :=
  let storedEmail := getItem "rememberedEmail" e in
  if truthy_opt storedEmail then
    {| email := default "" storedEmail; password := password Login_initial;
       rememberMe := true; login_error := login_error Login_initial |}
  else Login_initial.

(** [handleSubmit] of [Login] once the server has answered with
    [data.token] truthy: the credential and, if asked, the identifier are
    stored; [onLoginSuccess] and [navigate] follow. *)
Definition Login_store (token : string) (st : LoginState) (e : Env) : Env :=
  let e := setItem "token" token e in
  let e := if rememberMe st then setItem "rememberedEmail" (email st) e
           else removeItem "rememberedEmail" e in
  navigate "/dashboard" (handleLoginSuccess e).

(** ** Running operations one after the other *)

Inductive Op :=
| Create (title description status : string)
| Update (task : Task) (title : string) (description status : option string)
| Delete (taskId : Z).

(** The operation is invoked with its arguments placed in the form cells:
    for an update the edit is started on [task] and the draft overwritten. *)
Definition invoke (op : Op) (w : World) : World :=
  match op with
  | Create title description status =>
      handleCreateTask
        (setNewTaskStatus status
           (setNewTaskDescription description (setNewTaskTitle title w)))
  | Update task title description status =>
      handleUpdateTask
        (setEditTaskStatus status
           (setEditTaskDescription description
              (setEditTaskTitle title (handleStartEdit task w))))
  | Delete taskId => handleDeleteTask taskId true w
  end.

(** One operation with the server's answers to the mutation request and to
    the reload that follows it. *)
Record Round := {
  r_op : Op;
  r_mutation : NetOutcome;
  r_reload : NetOutcome
}.

(** The round runs to its end; the result is [None] unless both gateway
    calls were issued and resolved. *)
Definition run_round (r : Round) (w : World) : option World :=
  match deliver_settled 0 (r_mutation r) (invoke (r_op r) w) with
  | (w1, Some (Resolved _)) =>
      match deliver_settled 0 (r_reload r) w1 with
      | (w2, Some (Resolved _)) => Some w2
      | _ => None
      end
  | _ => None
  end.

Fixpoint run_rounds (rs : list Round) (w : World) : option World :=
  match rs with
  | [] => Some w
  | r :: rest =>
      match run_round r w with
      | Some w1 => run_rounds rest w1
      | None => None
      end
  end.

(** The whole system, one event at a time: the user acts on a control, the
    network settles a request in flight, or another tab changes the
    storage (the ['storage'] listener of [App] then runs). *)
Inductive Step :=
| UserEvent (ev : UiEvent)
| Settles (i : nat) (o : NetOutcome)
| StorageChanged (s : gmap string string).

Definition step (st : Step) (w : World) : World :=
  match st with
  | UserEvent ev => dispatch ev w
  | Settles i o => deliver i o w
  | StorageChanged s => with_env (handleStorageChange s) w
  end.

(** ** Notions used in the statements *)

(** What a reload that resolves to [d] leaves in the collection. *)
Definition collection_of (d : Data) : Data :=
  if truthy d then d else no_tasks.

Definition is_mutation (k : Kont) : Prop :=
  match k with
  | KFetchTasks _ => False
  | _ => True
  end.

Definition is_unauthorized (r : Response) : Prop :=
  resp_status r = 401%Z \/ resp_status r = 403%Z.

(** Nothing is in flight, or exactly one request is and the busy flag is
    set. *)
Definition single_flight (w : World) : Prop :=
  pending (env w) = []
  \/ (isLoading w = true /\ exists p, pending (env w) = [p]).

(** A form is submitted while its title input is empty. *)
Definition empty_title_submission (ev : UiEvent) (w : World) : Prop :=
  match ev with
  | SubmitCreateForm => newTaskTitle (form w) = ""
  | SubmitEditForm => editTaskTitle (edit w) = ""
  | _ => False
  end.

(** A control that starts a create, an update or a delete. *)
Definition starts_operation (ev : UiEvent) : Prop :=
  match ev with
  | SubmitCreateForm | SubmitEditForm | ClickEdit _ | ClickDelete _ _ => True
  | _ => False
  end.

(** The status the specification derives from the completion flag. *)
Definition status_of_flag (completed : bool) : string :=
  if completed then "COMPLETED" else "PENDING".

(** Typing into the three controls of the edit form. *)
Definition type_draft (title : string) (description status : option string)
    (w : World) : World :=
  setEditTaskStatus status
    (setEditTaskDescription description (setEditTaskTitle title w)).

(** ** Sample data *)

Definition sample_env : Env :=
  {| localStorage := {[ "token" := "abc" ]}; isAuthenticated := true;
     nav := []; net := []; pending := [] |}.

Definition sample_task : Task :=
  {| task_id := 1; task_title := "X"; task_description := Some "";
     task_completed := Some false; task_status := Some "PENDING" |}.

Definition other_task : Task :=
  {| task_id := 2; task_title := "Y"; task_description := None;
     task_completed := Some true; task_status := Some "IN_PROGRESS" |}.

Definition ok_json (j : Json) : NetOutcome :=
  Responds {| resp_status := 200; resp_content_length := None;
              resp_content_type := Some "application/json";
              resp_text := ""; resp_json := ParsedJson j |}.

Definition status_only (code : Z) : NetOutcome :=
  Responds {| resp_status := code; resp_content_length := Some "0";
              resp_content_type := None; resp_text := "";
              resp_json := ParseError "Unexpected end of JSON input" |}.

Definition sample_rounds : list Round :=
  [ {| r_op := Create "X" "" "PENDING";
       r_mutation := ok_json (JObj None None);
       r_reload := ok_json (JArr [sample_task]) |};
    {| r_op := Update sample_task "X2" (Some "") (Some "COMPLETED");
       r_mutation := ok_json (JObj None None);
       r_reload := ok_json (JArr [other_task]) |} ].

Definition last_round : Round :=
  {| r_op := Delete 2;
     r_mutation := status_only 204;
     r_reload := ok_json (JArr []) |}.

(** The Dashboard after its first load has brought one task. *)
Definition loaded : World :=
  deliver 0 (ok_json (JArr [sample_task]))
    (fetchTasks FromEffect (mount sample_env)).

(** ... after which the token has left the storage (another tab logged
    out; its ['storage'] event has not been handled yet). *)
Definition token_gone : World := with_env (removeItem "token") loaded.

(** ... or after which a delete was answered 401. *)
Definition expired : World :=
  deliver 0 (status_only 401) (handleDeleteTask 1 true loaded).

(** The Dashboard mounted again in the environment [expired] leaves. *)
Definition remounted : World := mount (env expired).

(** The mount effect has run twice (its dependency [fetchTasks] changed):
    two loads are in flight. *)
Definition two_loads : World :=
  fetchTasks FromEffect (fetchTasks FromEffect (mount sample_env)).

(** A create is in flight. *)
Definition creating : World :=
  handleCreateTask (setNewTaskTitle "t" (mount sample_env)).

(** The storage after a login with "remember me" ticked. *)
Definition remembered_env : Env :=
  Login_store "abc"
    {| email := "ann@example.org"; password := "pw"; rememberMe := true;
       login_error := None |}
    {| localStorage := ∅; isAuthenticated := false; nav := []; net := [];
       pending := [] |}.

(** ** Login: [handleSubmit] *)

(** The messages of the [TypeError]s thrown by the browser itself, which
    differ from one browser to the next: reading a property of [null], and
    reading a response body a second time. *)
Record Engine := {
  null_property_msg : string;
  body_used_msg : string
}.

(** A decoded JSON body of the auth API: [ANoProps] is a boolean, a
    number, a string or an array (reading [.token] or [.message] of it
    gives [undefined]); of an object only [token] and [message] are
    read. *)
Inductive AuthJson :=
| ANull
| ANoProps
| AObj (token message : option string).

Inductive AuthParsed :=
| AuthParseError (msg : string)
| AuthParsedJson (j : AuthJson).

Record AuthResponse := {
  auth_status : Z;
  auth_statusText : string;
  auth_content_type : option string;
  auth_text : string;
  auth_json : AuthParsed
}.

Definition auth_ok (r : AuthResponse) : bool :=
  (200 <=? auth_status r)%Z && (auth_status r <=? 299)%Z.

Inductive AuthOutcome :=
| AuthFetchRejects (msg : string)
| AuthResponds (r : AuthResponse).

Definition setLoginError (m : option string) (st : LoginState) : LoginState :=
  {| email := email st; password := password st;
     rememberMe := rememberMe st; login_error := m |}.

Definition setEmail (s : string) (st : LoginState) : LoginState :=
  {| email := s; password := password st;
     rememberMe := rememberMe st; login_error := login_error st |}.

Definition setPassword (s : string) (st : LoginState) : LoginState :=
  {| email := email st; password := s;
     rememberMe := rememberMe st; login_error := login_error st |}.

(** [handleRememberMeChange] *)
Definition handleRememberMeChange (checked : bool) (st : LoginState)
    : LoginState :=
  {| email := email st; password := password st;
     rememberMe := checked; login_error := login_error st |}.

Definition json_content (r : AuthResponse) : bool :=
  match auth_content_type r with
  | Some s => truthy_string s && includes "application/json" s
  | None => false
  end.

(** The message of the error that leaves the [if (!response.ok)] block.
    When [response.json()] rejects, or [errorData] is [null], the inner
    [catch] calls [response.text()] on a body that has already been read:
    that call rejects, and its [TypeError] is what reaches the outer
    [catch]. *)
Definition Login_failure_message (eng : Engine) (r : AuthResponse) : string :=
  if json_content r then
    match auth_json r with
    | AuthParsedJson (AObj _ message) =>
        or_else message
          ("Login Failed (Status: " +:+ string_of_Z (auth_status r) +:+ ")")
    | AuthParsedJson ANoProps =>
        "Login Failed (Status: " +:+ string_of_Z (auth_status r) +:+ ")"
    | AuthParsedJson ANull => body_used_msg eng
    | AuthParseError _ => body_used_msg eng
    end
  else
    "Login Failed: " +:+ or_else (Some (auth_text r)) (auth_statusText r).

Definition msg_no_token_received : string :=
  "Login successful but no token received.".

(** [handleSubmit] of [Login], given what the network does with the POST
    to [/auth/login]. *)
Definition Login_handleSubmit (eng : Engine) (o : AuthOutcome)
    (st : LoginState) (e : Env) : LoginState * Env :=
  let st := setLoginError None st in
  match o with
  | AuthFetchRejects msg => (setLoginError (Some msg) st, e)
  | AuthResponds r =>
      if negb (auth_ok r) then
        (setLoginError (Some (Login_failure_message eng r)) st, e)
      else
        match auth_json r with
        | AuthParseError msg => (setLoginError (Some msg) st, e)
        | AuthParsedJson ANull =>
            (setLoginError (Some (null_property_msg eng)) st, e)
        | AuthParsedJson ANoProps =>
            (setLoginError (Some msg_no_token_received) st, e)
        | AuthParsedJson (AObj token _) =>
            if truthy_opt token then (st, Login_store (default "" token) st e)
            else (setLoginError (Some msg_no_token_received) st, e)
        end
  end.

(** ** Runs *)

Definition run (sts : list Step) (w : World) : World :=
  foldl (fun w st => step st w) w sts.

(** A step of the Dashboard itself: the user acts or a request settles. *)
Definition dashboard_step (st : Step) : Prop :=
  match st with
  | StorageChanged _ => False
  | _ => True
  end.

(** The busy flag is set exactly when a request is in flight, and at most
    one is. *)
Definition busy_exact (w : World) : Prop :=
  (isLoading w = false /\ pending (env w) = [])
  \/ (isLoading w = true /\ exists p, pending (env w) = [p]).

Definition bearer_present (r : Request) : Prop :=
  truthy_string (req_bearer r) = true.

(** The session flag of [App] agrees with the storage. *)
Definition session_consistent (e : Env) : Prop :=
  isAuthenticated e = truthy_opt (getItem "token" e).


(** What one step of the Dashboard may do to its environment: the storage
    is kept or loses its token, the session flag is kept, every navigation
    goes to the login view, and at most one request is issued, bearing a
    token. *)
Definition step_effect (w w' : World) : Prop :=
  (localStorage (env w') = localStorage (env w)
   \/ localStorage (env w') = delete "token" (localStorage (env w)))
  /\ isAuthenticated (env w') = isAuthenticated (env w)
  /\ (exists l, nav (env w') = nav (env w) ++ l /\ Forall (eq "/login") l)
  /\ (exists rs, net (env w') = net (env w) ++ rs
                 /\ (length rs <= 1)%nat /\ Forall bearer_present rs).

(** The response is one of the two statuses that force the logout. *)
Definition forces_logout (o : NetOutcome) : Prop :=
  match o with
  | Responds r => is_unauthorized r
  | FetchRejects _ => False
  end.

(** A server error whose body carries the message "Unauthorized". *)
Definition server_says_unauthorized : NetOutcome :=
  Responds {| resp_status := 500; resp_content_length := None;
              resp_content_type := Some "application/json";
              resp_text := "";
              resp_json := ParsedJson (JObj (Some "Unauthorized") None) |}.

(** A task whose id is 0. *)
Definition zero_task : Task :=
  {| task_id := 0; task_title := "Z"; task_description := None;
     task_completed := Some false; task_status := Some "PENDING" |}.

(** A completed task sent without a [status] field. *)
Definition bare_task : Task :=
  {| task_id := 3; task_title := "B"; task_description := Some "b";
     task_completed := Some true; task_status := None |}.

(** ** App: what changes the session flag *)

(** The three handlers of [App] that call [updateAuthStatus]. *)
Inductive AppAction :=
| LoginSucceeded
| LogoutClicked
| StorageEvent (s : gmap string string).

Definition app_action (a : AppAction) (e : Env) : Env :=
  match a with
  | LoginSucceeded => handleLoginSuccess e
  | LogoutClicked => handleLogout e
  | StorageEvent s => handleStorageChange s e
  end.

(** A successful answer of [/auth/login] carrying [token]. *)
Definition login_ok (token : string) : AuthOutcome :=
  AuthResponds {| auth_status := 200; auth_statusText := "OK";
                  auth_content_type := Some "application/json";
                  auth_text := "";
                  auth_json := AuthParsedJson (AObj (Some token) None) |}.

Definition sample_engine : Engine :=
  {| null_property_msg := "Cannot read properties of null (reading 'token')";
     body_used_msg := "Failed to execute 'text' on 'Response': body stream already read" |}.

Definition logged_out_env : Env :=
  {| localStorage := {[ "rememberedEmail" := "old@example.org" ]};
     isAuthenticated := false; nav := []; net := []; pending := [] |}.

Definition ann : LoginState :=
  {| email := "ann@example.org"; password := "pw"; rememberMe := true;
     login_error := Some "Login Failed" |}.

(** The first load brings a task, the user types a title and submits the
    create form, and the POST is answered 401. *)
Definition sample_run : list Step :=
  [ Settles 0 (ok_json (JArr [sample_task]));
    UserEvent (ChangeNewTitle "t");
    UserEvent SubmitCreateForm;
    Settles 0 (status_only 401) ].

(** The user forgets to tick "remember me". *)
Definition bob : LoginState :=
  {| email := "bob@example.org"; password := "pw"; rememberMe := false;
     login_error := None |}.

(** ** Signup: [handleSubmit] *)

Record SignupState := {
  su_username : string;
  su_email : string;
  su_password : string;
  su_confirmPassword : string;
  su_error : option string
}.

(** The body of the POST to [/auth/register] ([roles] is always the empty
    array). *)
Record SignupData := {
  sd_username : string;
  sd_password : string;
  sd_email : string
}.

Definition setSignupError (m : option string) (st : SignupState)
    : SignupState :=
  {| su_username := su_username st; su_email := su_email st;
     su_password := su_password st;
     su_confirmPassword := su_confirmPassword st; su_error := m |}.

(** The message of the error that leaves the [if (!response.ok)] block;
    as in [Login], the [response.text()] of the inner [catch] reads a body
    that [response.json()] has already read, and rejects. *)
Definition Signup_failure_message (eng : Engine) (r : AuthResponse) : string :=
  match auth_json r with
  | AuthParsedJson (AObj _ message) =>
      or_else message
        ("Signup Failed (Status: " +:+ string_of_Z (auth_status r) +:+ ")")
  | AuthParsedJson ANoProps =>
      "Signup Failed (Status: " +:+ string_of_Z (auth_status r) +:+ ")"
  | AuthParsedJson ANull => body_used_msg eng
  | AuthParseError _ => body_used_msg eng
  end.

(** [handleSubmit] of [Signup]: the new state and environment, and the
    request body if a request was sent ([o] is then its outcome). *)
Definition Signup_handleSubmit (eng : Engine) (o : AuthOutcome)
    (st : SignupState) (e : Env) : SignupState * Env * option SignupData :=
  let st := setSignupError None st in
  if negb (String.eqb (su_password st) (su_confirmPassword st)) then
    (setSignupError (Some "Passwords do not match.") st, e, None)
  else
    let signupData := {| sd_username := su_username st;
                         sd_password := su_password st;
                         sd_email := su_email st |} in
    match o with
    | AuthFetchRejects msg =>
        (setSignupError (Some msg) st, e, Some signupData)
    | AuthResponds r =>
        if negb (auth_ok r) then
          (setSignupError (Some (Signup_failure_message eng r)) st, e,
           Some signupData)
        else (st, navigate "/login" e, Some signupData)
    end.

(** ** ResetPassword *)

(** [message] may become [undefined] ([None]): it is set to
    [data.message]. *)
Record ResetState := {
  rp_token : string;
  rp_password : string;
  rp_confirmPassword : string;
  rp_message : option string;
  rp_error : string
}.

Record ResetData := {
  rd_token : string;
  rd_password : string;
  rd_confirmPassword : string
}.

(** What a submission leaves: the state, the request body if a request was
    sent, and the navigation handed to [setTimeout], if any. *)
Record ResetResult := {
  rr_state : ResetState;
  rr_sent : option ResetData;
  rr_scheduled : option string
}.

Definition ResetPassword_initial : ResetState :=
  {| rp_token := ""; rp_password := ""; rp_confirmPassword := "";
     rp_message := Some ""; rp_error := "" |}.

Definition setResetMessage (m : option string) (st : ResetState) : ResetState :=
  {| rp_token := rp_token st; rp_password := rp_password st;
     rp_confirmPassword := rp_confirmPassword st;
     rp_message := m; rp_error := rp_error st |}.

Definition setResetError (m : string) (st : ResetState) : ResetState :=
  {| rp_token := rp_token st; rp_password := rp_password st;
     rp_confirmPassword := rp_confirmPassword st;
     rp_message := rp_message st; rp_error := m |}.

Definition setResetToken (t : string) (st : ResetState) : ResetState :=
  {| rp_token := t; rp_password := rp_password st;
     rp_confirmPassword := rp_confirmPassword st;
     rp_message := rp_message st; rp_error := rp_error st |}.

(** The mount effect: [tokenFromUrl] is [searchParams.get('token')]. *)
Definition ResetPassword_mount (tokenFromUrl : option string) : ResetState :=
  if truthy_opt tokenFromUrl
  then setResetToken (default "" tokenFromUrl) ResetPassword_initial
  else setResetError "Invalid reset link." ResetPassword_initial.

Definition msg_unexpected : string :=
  "An unexpected error occurred. Please check your network and try again.".

Definition Reset_failure_message (r : AuthResponse) : string :=
  let status := string_of_Z (auth_status r) in
  match auth_json r with
  | AuthParsedJson (AObj _ message) =>
      or_else message ("Failed to reset password. Status: " +:+ status)
  | AuthParsedJson ANoProps => "Failed to reset password. Status: " +:+ status
  | AuthParsedJson ANull | AuthParseError _ =>
      "Failed to reset password. Status: " +:+ status
      +:+ ". Could not parse error message."
  end.

(** [handleSubmit] of [ResetPassword]; a string is a sequence of code
    units, so that [String.length] is [password.length]. *)
Definition ResetPassword_handleSubmit (o : AuthOutcome) (st : ResetState)
    : ResetResult :=
  let st := setResetError "" (setResetMessage (Some "") st) in
  let stop st := {| rr_state := st; rr_sent := None; rr_scheduled := None |} in
  if negb (String.eqb (rp_password st) (rp_confirmPassword st)) then
    stop (setResetError "Passwords do not match." st)
  else if (String.length (rp_password st) <? 6)%nat then
    stop (setResetError "Password must be at least 6 characters long." st)
  else
    let data := {| rd_token := rp_token st; rd_password := rp_password st;
                   rd_confirmPassword := rp_confirmPassword st |} in
    let failed st := {| rr_state := st; rr_sent := Some data;
                        rr_scheduled := None |} in
    match o with
    | AuthFetchRejects _ => failed (setResetError msg_unexpected st)
    | AuthResponds r =>
        if negb (auth_ok r) then
          failed (setResetError (Reset_failure_message r) st)
        else
          match auth_json r with
          | AuthParseError _ | AuthParsedJson ANull =>
              failed (setResetError msg_unexpected st)
          | AuthParsedJson ANoProps =>
              {| rr_state := setResetMessage None st; rr_sent := Some data;
                 rr_scheduled := Some "/login" |}
          | AuthParsedJson (AObj _ message) =>
              {| rr_state := setResetMessage message st; rr_sent := Some data;
                 rr_scheduled := Some "/login" |}
          end
    end.

(** ** The Dashboard mounted again and again *)

(** The environment one mount of the Dashboard leaves when its load ends
    at once. *)
Definition remount (e : Env) : Env := env (fetchTasks FromEffect (mount e)).

Definition sample_signup : SignupState :=
  {| su_username := "ann"; su_email := "ann@example.org";
     su_password := "secret1"; su_confirmPassword := "secret2";
     su_error := None |}.

Definition sample_reset : ResetState :=
  {| rp_token := "r1"; rp_password := "secret1";
     rp_confirmPassword := "secret1"; rp_message := Some "";
     rp_error := "Invalid reset link." |}.

(** The second character of a pathname, in lower case ([None]: there is
    none). *)
Definition second_lower (pathname : string) : option ascii :=
  match pathname with
  | String _ (String c _) => Some (ascii_lower c)
  | _ => None
  end.

(** * Properties *)

(** ** The gateway *)

(** How the gateway call settles depends on the outcome alone. *)
Lemma settle_result_indep o w v :
  snd (fetchWithAuth_settle o w) = snd (fetchWithAuth_settle o v).
Proof.
  unfold fetchWithAuth_settle, api_call_failed.
  destruct o as [msg | r]; [reflexivity |].
  repeat (case_match; simpl; try reflexivity).
Qed.

(** A call that resolves has touched nothing. *)
Lemma settle_resolved o w w' d :
  fetchWithAuth_settle o w = (w', Resolved d) -> w' = w.
Proof.
  unfold fetchWithAuth_settle, api_call_failed.
  destruct o as [msg | r]; [discriminate |].
  repeat (case_match; try discriminate); congruence.
Qed.

(** A call that rejects leaves the collection, the requests issued, the
    requests in flight and both forms as they were. *)
Lemma settle_rejected_frame o w w' msg :
  fetchWithAuth_settle o w = (w', Rejected msg) ->
  tasks w' = tasks w /\ net (env w') = net (env w)
  /\ pending (env w') = pending (env w) /\ form w' = form w
  /\ edit w' = edit w.
Proof.
  unfold fetchWithAuth_settle, api_call_failed.
  destruct o as [m | r].
  - intros [= <- _]. by case_match.
  - repeat (case_match; try discriminate); intros [= <- _]; done.
Qed.

Lemma settle_pending o w :
  pending (env (fst (fetchWithAuth_settle o w))) = pending (env w).
Proof.
  destruct (fetchWithAuth_settle o w) as [w1 [d | msg]] eqn:Hs; simpl.
  - by rewrite (settle_resolved _ _ _ _ Hs).
  - by destruct (settle_rejected_frame _ _ _ _ Hs) as (_ & _ & -> & _).
Qed.

Lemma call_without_token m u b w :
  truthy_opt (getItem "token" (env w)) = false ->
  fetchWithAuth_call m u b w
  = (with_env (navigate "/login") (setError (Some msg_no_token) w), None).
Proof. unfold fetchWithAuth_call. by intros ->. Qed.

Lemma call_with_token m u b w :
  truthy_opt (getItem "token" (env w)) = true ->
  fetchWithAuth_call m u b w
  = (w, Some {| req_method := m; req_url := u;
                req_bearer := default "" (getItem "token" (env w));
                req_body := b |}).
Proof. unfold fetchWithAuth_call. by intros ->. Qed.

Lemma settle_unauthorized r w :
  is_unauthorized r ->
  fetchWithAuth_settle (Responds r) w
  = (with_env (navigate "/login")
       (with_env (removeItem "token") (setError (Some msg_expired) w)),
     Rejected "Unauthorized").
Proof.
  intros Hr. unfold fetchWithAuth_settle.
  replace ((resp_status r =? 401)%Z || (resp_status r =? 403)%Z) with true.
  - reflexivity.
  - symmetry. apply orb_true_iff. destruct Hr as [-> | ->]; auto.
Qed.

(** ** Requests in flight *)

(** [fetchTasks] either puts one GET in flight or, without a token, ends at
    once. *)
Lemma fetchTasks_pending c w :
  (exists r, pending (env (fetchTasks c w))
             = pending (env w) ++ [{| p_req := r; p_kont := KFetchTasks c |}])
  \/ pending (env (fetchTasks c w)) = pending (env w).
Proof.
  unfold fetchTasks, fetchWithAuth_call. simpl.
  destruct (truthy_opt (getItem "token" (env w))); simpl.
  - left. eauto.
  - right. by destruct c.
Qed.

(** A reload leaves the edit cells alone. *)
Lemma fetchTasks_edit c w : edit (fetchTasks c w) = edit w.
Proof.
  unfold fetchTasks, fetchWithAuth_call. simpl.
  destruct (truthy_opt (getItem "token" (env w))); simpl; [reflexivity |].
  by destruct c.
Qed.

Lemma invoke_pending op w :
  (exists r k, is_mutation k /\
     pending (env (invoke op w))
     = pending (env w) ++ [{| p_req := r; p_kont := k |}])
  \/ pending (env (invoke op w)) = pending (env w).
Proof.
  destruct op as [t d s | task t d s | i]; simpl.
  - unfold handleCreateTask, fetchWithAuth_call. simpl.
    destruct (truthy_opt (getItem "token" (env w))) eqn:E; simpl.
    + left. do 2 eexists. split; [| reflexivity]. exact I.
    + right. unfold fetchTasks. rewrite call_without_token by (simpl; exact E).
      reflexivity.
  - unfold handleUpdateTask. simpl.
    destruct (task_id task =? 0)%Z; simpl; [by right |].
    unfold fetchWithAuth_call. simpl.
    destruct (truthy_opt (getItem "token" (env w))) eqn:E; simpl.
    + left. do 2 eexists. split; [| reflexivity]. exact I.
    + right. unfold fetchTasks. rewrite call_without_token by (simpl; exact E).
      reflexivity.
  - unfold handleDeleteTask, fetchWithAuth_call. simpl.
    destruct (truthy_opt (getItem "token" (env w))) eqn:E; simpl.
    + left. do 2 eexists. split; [| reflexivity]. exact I.
    + right. unfold fetchTasks. rewrite call_without_token by (simpl; exact E).
      reflexivity.
Qed.

(** Settling the only request in flight. *)
Lemma deliver_settled_single p o w :
  pending (env w) = [p] ->
  deliver_settled 0 o w
  = let w0 := with_env (set_pending []) w in
    (resume (p_kont p) (snd (fetchWithAuth_settle o w0))
       (fst (fetchWithAuth_settle o w0)),
     Some (snd (fetchWithAuth_settle o w0))).
Proof.
  intros Hp. unfold deliver_settled. rewrite Hp. simpl.
  replace (with_env (fun e => set_pending (delete 0%nat (pending e)) e) w)
    with (with_env (set_pending []) w).
  - by destruct (fetchWithAuth_settle o _).
  - unfold with_env, set_pending. by rewrite Hp.
Qed.

Lemma deliver_settled_none o w :
  pending (env w) = [] -> deliver_settled 0 o w = (w, None).
Proof. intros Hp. unfold deliver_settled. by rewrite Hp. Qed.

Lemma resume_rejected_frame k msg w :
  let w' := resume k (Rejected msg) w in
  env w' = env w /\ tasks w' = tasks w /\ error w' = error w
  /\ isLoading w' = false.
Proof. destruct k as [[] | | |]; simpl; auto. Qed.

(** ** Reconciliation *)

Lemma fetchTasks_settled_resolved d w :
  tasks (fetchTasks_settled (Resolved d) w) = collection_of d.
Proof. unfold fetchTasks_settled, collection_of. by destruct (truthy d). Qed.

(** A round that succeeds ends with nothing in flight and with the
    collection the reload brought. *)
Lemma run_round_reloads r w w' :
  pending (env w) = [] ->
  run_round r w = Some w' ->
  pending (env w') = [] /\
  exists d, (forall v, snd (fetchWithAuth_settle (r_reload r) v) = Resolved d)
            /\ tasks w' = collection_of d.
Proof.
  intros Hq. unfold run_round.
  destruct (invoke_pending (r_op r) w) as [(rq & k & Hk & Hp) | Hp];
    rewrite Hq in Hp; simpl in Hp.
  2:{ by rewrite (deliver_settled_none _ _ Hp). }
  rewrite (deliver_settled_single _ _ _ Hp). simpl.
  set (w0 := with_env (set_pending []) (invoke (r_op r) w)).
  destruct (fetchWithAuth_settle (r_mutation r) w0) as [w1 s] eqn:Hs.
  simpl. destruct s as [d1 | m]; [| done].
  apply settle_resolved in Hs. subst w1.
  assert (Hload : exists x, pending (env x) = [] /\
            resume k (Resolved d1) w0 = fetchTasks FromHandler x).
  { destruct k; simpl in Hk; [done | ..]; eexists; (split; [| reflexivity]);
      reflexivity. }
  destruct Hload as (x & Hx & ->).
  destruct (fetchTasks_pending FromHandler x) as [(rq2 & Hp2) | Hp2];
    rewrite Hx in Hp2; simpl in Hp2.
  2:{ by rewrite (deliver_settled_none _ _ Hp2). }
  rewrite (deliver_settled_single _ _ _ Hp2). simpl.
  set (w2 := with_env (set_pending []) (fetchTasks FromHandler x)).
  destruct (fetchWithAuth_settle (r_reload r) w2) as [w3 s] eqn:Hs.
  simpl. destruct s as [d | m]; [| done].
  intros [= <-].
  pose proof (settle_resolved _ _ _ _ Hs) as ->.
  split.
  { unfold fetchTasks_settled. by destruct (truthy d). }
  exists d. split.
  - intros v. rewrite (settle_result_indep _ v w2). by rewrite Hs.
  - apply fetchTasks_settled_resolved.
Qed.

Lemma run_rounds_quiescent rs w w' :
  pending (env w) = [] -> run_rounds rs w = Some w' -> pending (env w') = [].
Proof.
  revert w. induction rs as [| r rs IH]; intros w Hq; simpl.
  - by intros [= <-].
  - destruct (run_round r w) as [w1 |] eqn:Hr; [| done].
    apply IH. by destruct (run_round_reloads _ _ _ Hq Hr).
Qed.

Lemma run_rounds_app rs1 rs2 w :
  run_rounds (rs1 ++ rs2) w
  = match run_rounds rs1 w with
    | Some w1 => run_rounds rs2 w1
    | None => None
    end.
Proof.
  revert w. induction rs1 as [| r rs1 IH]; intros w; simpl; [done |].
  destruct (run_round r w); [apply IH | done].
Qed.

(** What a resolved call resolves to, read off the response. *)
Lemma settle_resolved_payload o v d :
  snd (fetchWithAuth_settle o v) = Resolved d ->
  exists resp,
    o = Responds resp
    /\ (200 <= resp_status resp <= 299)%Z
    /\ ((zero_length resp = true \/ resp_status resp = 204%Z) /\ d = DNull
        \/ (zero_length resp = false /\ resp_status resp <> 204%Z
            /\ text_plain resp = true /\ d = DText (resp_text resp))
        \/ (zero_length resp = false /\ resp_status resp <> 204%Z
            /\ text_plain resp = false
            /\ exists j, resp_json resp = ParsedJson j /\ d = DJson j)).
Proof.
  unfold fetchWithAuth_settle, api_call_failed.
  destruct o as [m | resp]; [discriminate |].
  destruct (_ || _) eqn:E1; [discriminate |].
  destruct (resp_ok resp) eqn:Hok; simpl; [| discriminate].
  intros Hs. exists resp. split; [reflexivity |]. split.
  { unfold resp_ok in Hok. apply andb_true_iff in Hok. lia. }
  destruct (zero_length resp) eqn:Hz; simpl in Hs.
  { left. injection Hs as <-. auto. }
  destruct (Z.eqb_spec (resp_status resp) 204) as [H204 | H204]; simpl in Hs.
  { left. injection Hs as <-. auto. }
  destruct (text_plain resp) eqn:Ht.
  { right. left. injection Hs as <-. auto. }
  right. right. destruct (resp_json resp) as [msg | j]; [discriminate |].
  injection Hs as <-. repeat split; eauto.
Qed.

(** The requests an operation and a reload issue. *)
Lemma fetchTasks_issues c w :
  (exists g, req_method g = GET /\ req_url g = TasksUrl /\ req_body g = None
     /\ pending (env (fetchTasks c w))
        = pending (env w) ++ [{| p_req := g; p_kont := KFetchTasks c |}]
     /\ net (env (fetchTasks c w)) = net (env w) ++ [g])
  \/ pending (env (fetchTasks c w)) = pending (env w).
Proof.
  unfold fetchTasks, fetchWithAuth_call. simpl.
  destruct (truthy_opt (getItem "token" (env w))); simpl.
  - left.
    exists {| req_method := GET; req_url := TasksUrl;
              req_bearer := default "" (getItem "token" (env w));
              req_body := None |}.
    by repeat split.
  - right. by destruct c.
Qed.

Lemma invoke_issues op w :
  (exists m k, is_mutation k /\ req_method m <> GET
     /\ pending (env (invoke op w))
        = pending (env w) ++ [{| p_req := m; p_kont := k |}]
     /\ net (env (invoke op w)) = net (env w) ++ [m])
  \/ pending (env (invoke op w)) = pending (env w).
Proof.
  destruct op as [t d s | task t d s | i]; simpl.
  - unfold handleCreateTask, fetchWithAuth_call. simpl.
    destruct (truthy_opt (getItem "token" (env w))) eqn:E; simpl.
    + left. do 2 eexists.
      split; [| split; [| split; reflexivity]]; [exact I | discriminate].
    + right. unfold fetchTasks. rewrite call_without_token by (simpl; exact E).
      reflexivity.
  - unfold handleUpdateTask. simpl.
    destruct (task_id task =? 0)%Z; simpl; [by right |].
    unfold fetchWithAuth_call. simpl.
    destruct (truthy_opt (getItem "token" (env w))) eqn:E; simpl.
    + left. do 2 eexists.
      split; [| split; [| split; reflexivity]]; [exact I | discriminate].
    + right. unfold fetchTasks. rewrite call_without_token by (simpl; exact E).
      reflexivity.
  - unfold handleDeleteTask, fetchWithAuth_call. simpl.
    destruct (truthy_opt (getItem "token" (env w))) eqn:E; simpl.
    + left. do 2 eexists.
      split; [| split; [| split; reflexivity]]; [exact I | discriminate].
    + right. unfold fetchTasks. rewrite call_without_token by (simpl; exact E).
      reflexivity.
Qed.

(** A round that succeeds has issued the request of its operation and then
    a GET /tasks, and ends with what that GET resolved to. *)
Lemma run_round_trace r w w' :
  pending (env w) = [] ->
  run_round r w = Some w' ->
  exists mutation reload d,
    net (env w') = net (env w) ++ [mutation; reload]
    /\ req_method mutation <> GET
    /\ req_method reload = GET /\ req_url reload = TasksUrl
    /\ req_body reload = None
    /\ (forall v, snd (fetchWithAuth_settle (r_reload r) v) = Resolved d)
    /\ tasks w' = collection_of d.
Proof.
  intros Hq. unfold run_round.
  destruct (invoke_issues (r_op r) w) as [(m & k & Hk & Hm & Hp & Hn) | Hp];
    rewrite Hq in Hp; simpl in Hp.
  2:{ by rewrite (deliver_settled_none _ _ Hp). }
  rewrite (deliver_settled_single _ _ _ Hp). simpl.
  set (w0 := with_env (set_pending []) (invoke (r_op r) w)).
  destruct (fetchWithAuth_settle (r_mutation r) w0) as [w1 s] eqn:Hs.
  simpl. destruct s as [d1 | msg]; [| done].
  apply settle_resolved in Hs. subst w1.
  assert (Hload : exists x, pending (env x) = [] /\ net (env x) = net (env w0)
            /\ resume k (Resolved d1) w0 = fetchTasks FromHandler x).
  { destruct k; simpl in Hk; [done | ..]; eexists;
      (split; [| split; [| reflexivity]]); reflexivity. }
  destruct Hload as (x & Hx & Hnx & ->).
  destruct (fetchTasks_issues FromHandler x)
    as [(g & Hg1 & Hg2 & Hg3 & Hp2 & Hn2) | Hp2];
    rewrite Hx in Hp2; simpl in Hp2.
  2:{ by rewrite (deliver_settled_none _ _ Hp2). }
  rewrite (deliver_settled_single _ _ _ Hp2). simpl.
  set (w2 := with_env (set_pending []) (fetchTasks FromHandler x)).
  destruct (fetchWithAuth_settle (r_reload r) w2) as [w3 s] eqn:Hs.
  simpl. destruct s as [d | msg]; [| done].
  intros [= <-].
  pose proof (settle_resolved _ _ _ _ Hs) as ->.
  exists m, g, d. repeat split; try done.
  - transitivity (net (env w2)).
    { unfold fetchTasks_settled. by destruct (truthy d). }
    unfold w2. simpl. rewrite Hn2, Hnx. unfold w0. simpl. rewrite Hn.
    by rewrite <- app_assoc.
  - intros v. rewrite (settle_result_indep _ v w2). by rewrite Hs.
  - apply fetchTasks_settled_resolved.
Qed.

(** C1.  Start with nothing in flight and run any sequence of create,
    update and delete operations, each one to the end of its reload, all of
    them succeeding ([run_rounds] yields a world).  Then the last two
    requests issued are that of the last operation and a GET /tasks; the
    answer to that GET has a 2xx status, and the local collection is what
    that answer carries: when its body is a JSON array of tasks the
    collection is exactly that array (any other JSON value is taken as it
    is when truthy), and when the answer is empty (204, or a content length
    of "0") the collection is the empty list.  So the collection is a
    function of the last answer alone, whatever it was before. *)
Theorem reload_replaces_collection rs r w w' :
  pending (env w) = [] ->
  run_rounds (rs ++ [r]) w = Some w' ->
  exists resp d,
    r_reload r = Responds resp
    /\ (200 <= resp_status resp <= 299)%Z
    /\ (exists sent mutation reload,
          net (env w') = sent ++ [mutation; reload]
          /\ req_method mutation <> GET
          /\ req_method reload = GET /\ req_url reload = TasksUrl
          /\ req_body reload = None)
    /\ (forall v, snd (fetchWithAuth_settle (r_reload r) v) = Resolved d)
    /\ tasks w' = (if truthy d then d else no_tasks)
    /\ (forall l, d = DJson (JArr l) -> tasks w' = DJson (JArr l))
    /\ (forall j, resp_json resp = ParsedJson j ->
          zero_length resp = false -> resp_status resp <> 204%Z ->
          text_plain resp = false ->
          d = DJson j
          /\ tasks w' = (if truthy (DJson j) then DJson j else no_tasks))
    /\ (forall l, resp_json resp = ParsedJson (JArr l) ->
          zero_length resp = false -> resp_status resp <> 204%Z ->
          text_plain resp = false ->
          tasks w' = DJson (JArr l))
    /\ (zero_length resp = true \/ resp_status resp = 204%Z ->
          tasks w' = no_tasks).
Proof.
  intros Hq. rewrite run_rounds_app.
  destruct (run_rounds rs w) as [w1 |] eqn:Hrs; [| done].
  simpl. destruct (run_round r w1) as [w2 |] eqn:Hr; [| done].
  intros [= <-].
  pose proof (run_rounds_quiescent _ _ _ Hq Hrs) as Hq1.
  destruct (run_round_trace _ _ _ Hq1 Hr)
    as (m & g & d & Hn & Hm & Hg1 & Hg2 & Hg3 & Hd & Ht).
  destruct (settle_resolved_payload _ w d (Hd w)) as (resp & Ho & Hst & Hcase).
  exists resp, d. split; [exact Ho |]. split; [exact Hst |].
  split. { exists (net (env w1)), m, g. auto. }
  split; [exact Hd |]. split; [exact Ht |].
  split. { intros l ->. exact Ht. }
  assert (Hj : forall j, resp_json resp = ParsedJson j ->
            zero_length resp = false -> resp_status resp <> 204%Z ->
            text_plain resp = false -> d = DJson j).
  { intros j Hj Hz H204 Htp.
    destruct Hcase as [([Hz' | H204'] & _) | [(_ & _ & Htp' & _)
                       | (_ & _ & _ & j' & Hj' & ->)]]; try congruence. }
  split. { intros j Hj' Hz H204 Htp. rewrite Ht.
           rewrite (Hj j Hj' Hz H204 Htp). auto. }
  split. { intros l Hl Hz H204 Htp. rewrite Ht.
           by rewrite (Hj _ Hl Hz H204 Htp). }
  intros Hempty. rewrite Ht.
  destruct Hcase as [(_ & ->) | [(Hz & H204 & _) | (Hz & H204 & _)]];
    [reflexivity | |]; destruct Hempty; congruence.
Qed.

(** A create, an update and a delete in a row, all answered 2xx: the
    collection ends as the (empty) array of the last reload. *)
Lemma reload_replaces_collection_witness :
  exists w',
    run_rounds (sample_rounds ++ [last_round]) (mount sample_env) = Some w'
    /\ tasks w' = DJson (JArr []).
Proof.
  assert (H : exists w', run_rounds (sample_rounds ++ [last_round])
                            (mount sample_env) = Some w').
  { vm_compute. eexists. reflexivity. }
  destruct H as [w' H].
  destruct (reload_replaces_collection sample_rounds last_round
              (mount sample_env) w' eq_refl H)
    as (resp & d & Hr & _ & _ & _ & _ & _ & _ & Hl & _).
  exists w'. split; [exact H |].
  injection Hr as <-. apply Hl; [reflexivity | reflexivity | | reflexivity].
  simpl. lia.
Defined.

(** ** Unauthorized responses *)

(** One 401/403 response: what it does to the world, whatever awaited it.
    The [isAuthenticated] cell of [App] is not among the things touched. *)
Lemma deliver_unauthorized i p r w :
  pending (env w) !! i = Some p ->
  is_unauthorized r ->
  let w' := deliver i (Responds r) w in
  localStorage (env w') = delete "token" (localStorage (env w))
  /\ nav (env w') = nav (env w) ++ ["/login"]
  /\ net (env w') = net (env w)
  /\ pending (env w') = delete i (pending (env w))
  /\ isAuthenticated (env w') = isAuthenticated (env w)
  /\ tasks w' = tasks w
  /\ error w' = Some msg_expired.
Proof.
  intros Hp Hr. unfold deliver, deliver_settled. rewrite Hp.
  rewrite (settle_unauthorized _ _ Hr). cbv zeta. cbn [fst].
  match goal with
  | |- context [resume ?k ?s ?x] =>
      destruct (resume_rejected_frame k "Unauthorized" x) as (-> & -> & -> & _)
  end.
  simpl. repeat split.
Qed.

(** C2, as amended.  A 401 or 403 response to any request in flight,
    whatever operation awaits it, removes the token from the storage (and
    no other key), issues no further request, leaves the collection alone
    and asks once for the login view.  Should a second request in flight
    then fail with 401/403 as well, it finds the token already gone and
    asks for the login view again: two failures, two navigations. *)
Theorem unauthorized_clears_and_navigates i p r1 w :
  is_unauthorized r1 ->
  pending (env w) !! i = Some p ->
  let w1 := deliver i (Responds r1) w in
  (getItem "token" (env w1) = None
   /\ (forall k, k <> "token" -> getItem k (env w1) = getItem k (env w))
   /\ nav (env w1) = nav (env w) ++ ["/login"]
   /\ net (env w1) = net (env w)
   /\ pending (env w1) = delete i (pending (env w))
   /\ tasks w1 = tasks w)
  /\ (forall j q r2,
        is_unauthorized r2 ->
        pending (env w1) !! j = Some q ->
        let w2 := deliver j (Responds r2) w1 in
        getItem "token" (env w2) = None
        /\ nav (env w2) = nav (env w) ++ ["/login"; "/login"]
        /\ net (env w2) = net (env w)).
Proof.
  intros H1 Hp w1.
  destruct (deliver_unauthorized i p r1 w Hp H1)
    as (Hs1 & Hn1 & Hr1 & Hp1 & _ & Ht1 & _).
  fold w1 in Hs1, Hn1, Hr1, Hp1, Ht1.
  split.
  - unfold getItem. rewrite Hs1. repeat split; try done.
    + apply lookup_delete_eq.
    + intros k Hk. by rewrite lookup_delete_ne.
  - intros j q r2 H2 Hq w2.
    destruct (deliver_unauthorized j q r2 w1 Hq H2) as (Hs2 & Hn2 & Hr2 & _).
    fold w2 in Hs2, Hn2, Hr2.
    unfold getItem. rewrite Hs2, Hn2, Hn1, Hr2, Hr1.
    rewrite lookup_delete_eq, <- app_assoc. simpl. auto.
Qed.

(** The Dashboard has loaded; a delete is answered 401. *)
Lemma unauthorized_clears_and_navigates_witness :
  let w := handleDeleteTask 1 true loaded in
  let w1 := deliver 0 (status_only 401) w in
  getItem "token" (env w) = Some "abc"
  /\ getItem "token" (env w1) = None
  /\ nav (env w1) = nav (env w) ++ ["/login"]
  /\ pending (env w1) = [].
Proof.
  intros w w1.
  destruct (unauthorized_clears_and_navigates 0
    {| p_req := {| req_method := DELETE; req_url := TaskUrl 1;
                   req_bearer := "abc"; req_body := None |};
       p_kont := KDelete |}
    {| resp_status := 401; resp_content_length := Some "0";
       resp_content_type := None; resp_text := "";
       resp_json := ParseError "Unexpected end of JSON input" |}
    (handleDeleteTask 1 true loaded))
    as ((Ht & _ & Hn & _ & Hq & _) & _).
  - left. reflexivity.
  - reflexivity.
  - split; [reflexivity |]. split; [exact Ht |]. split; [exact Hn |].
    exact Hq.
Defined.

(** C2, as stated, fails.  After a single 401 on a loaded Dashboard the
    session flag of [App] is still set, so that the route of the login view
    shows the Dashboard; and with two loads in flight, both answered 401,
    the login view is navigated to twice, not once. *)
Lemma two_unauthorized_navigate_twice :
  (isAuthenticated (env expired) = true
   /\ page_shown "/login" (isAuthenticated (env expired)) = DashboardPage)
  /\ (nav (env two_loads) = []
      /\ nav (env (deliver 0 (status_only 401)
                     (deliver 0 (status_only 401) two_loads)))
         = ["/login"; "/login"]).
Proof. repeat split. Qed.

(** ** Failing gateway calls *)

(** The calls that reject (Unauthorized, a server error, a transport
    failure) leave the collection alone and issue nothing more. *)
Lemma rejected_keeps_collection i p o w msg :
  pending (env w) !! i = Some p ->
  snd (deliver_settled i o w) = Some (Rejected msg) ->
  tasks (deliver i o w) = tasks w /\ net (env (deliver i o w)) = net (env w).
Proof.
  intros Hp. unfold deliver, deliver_settled. rewrite Hp.
  destruct (fetchWithAuth_settle o _) as [w1 s] eqn:Hs. simpl.
  intros [= ->].
  destruct (settle_rejected_frame _ _ _ _ Hs) as (Ht & Hn & _).
  destruct (resume_rejected_frame (p_kont p) msg w1) as (-> & -> & _).
  rewrite Ht, Hn. auto.
Qed.

(** Without a token no request is ever issued, by any operation. *)
Lemma no_token_no_request w :
  truthy_opt (getItem "token" (env w)) = false ->
  net (env (fetchTasks FromEffect w)) = net (env w)
  /\ (forall op, net (env (invoke op w)) = net (env w)).
Proof.
  intros E. split.
  - unfold fetchTasks. by rewrite call_without_token.
  - intros [t d s | task t d s | i]; simpl.
    + unfold handleCreateTask. rewrite call_without_token by exact E.
      unfold handleCreateTask_settled, fetchTasks.
      by rewrite call_without_token.
    + unfold handleUpdateTask. simpl.
      destruct (task_id task =? 0)%Z; simpl; [done |].
      rewrite call_without_token by exact E.
      unfold handleUpdateTask_settled, fetchTasks.
      by rewrite call_without_token.
    + unfold handleDeleteTask. simpl.
      rewrite call_without_token by exact E.
      unfold handleDeleteTask_settled, fetchTasks.
      by rewrite call_without_token.
Qed.

(** C3, the code at the failing input.  The Dashboard holds one task and
    the token has left the storage.  A load, a delete and a create each
    find no credential, issue no request, and leave the collection empty:
    the last-known-good list is cleared. *)
Theorem no_token_clears_collection :
  getItem "token" (env token_gone) = None
  /\ tasks token_gone = DJson (JArr [sample_task])
  /\ tasks (fetchTasks FromEffect token_gone) = DJson (JArr [])
  /\ tasks (handleDeleteTask 1 true token_gone) = DJson (JArr [])
  /\ tasks (invoke (Create "t" "d" "PENDING") token_gone) = DJson (JArr [])
  /\ net (env (fetchTasks FromEffect token_gone)) = net (env token_gone).
Proof. repeat split. Qed.

(** C8, the code at the failing input.  A delete has been answered 401, so
    the token is gone while [App] still holds [isAuthenticated = true], and
    the Dashboard is mounted again.  Its load finds no credential: the
    gateway issues no request and asks for the login view, but it returns
    [undefined] to its caller where a 401 throws, and [isAuthenticated]
    stays [true], so that the route guard of "/login" shows the Dashboard
    again.  With a create the caller goes on to the reload and the login
    view is asked for twice. *)
Theorem no_token_returns_normally :
  getItem "token" (env remounted) = None
  /\ isAuthenticated (env remounted) = true
  /\ snd (fetchWithAuth_call GET TasksUrl None remounted) = None
  /\ snd (fetchWithAuth_settle (status_only 401) loaded)
     = Rejected "Unauthorized"
  /\ net (env (fetchTasks FromEffect remounted)) = net (env remounted)
  /\ nav (env (fetchTasks FromEffect remounted))
     = nav (env remounted) ++ ["/login"]
  /\ isAuthenticated (env (fetchTasks FromEffect remounted)) = true
  /\ page_shown "/login"
       (isAuthenticated (env (fetchTasks FromEffect remounted)))
     = DashboardPage
  /\ nav (env (invoke (Create "t" "d" "PENDING") remounted))
     = nav (env remounted) ++ ["/login"; "/login"].
Proof. repeat split. Qed.

(** ** Validation of the title *)

(** C4, as stated, fails: [handleCreateTask] invoked on the fresh form,
    whose title is empty, sends the POST with the empty title. *)
Lemma create_with_empty_title_is_sent :
  newTaskTitle (form (mount sample_env)) = ""
  /\ net (env (handleCreateTask (mount sample_env)))
     = [{| req_method := POST; req_url := TasksUrl; req_bearer := "abc";
           req_body := Some {| body_title := "";
                               body_description := Some "";
                               body_completed := false |} |}].
Proof. split; reflexivity. Qed.

(** C4, as amended.  The create form or the edit form submitted while its
    [required] title input is empty never reaches its handler: the world is
    unchanged, so no request is issued and neither the collection nor the
    message slot changes. *)
Theorem empty_title_form_not_submitted ev w :
  empty_title_submission ev w ->
  dispatch ev w = w.
Proof.
  destruct ev; simpl; try done; intros ->; simpl.
  - by destruct (isLoading w).
  - by destruct (negb _), (isLoading w).
Qed.

Lemma empty_title_form_not_submitted_witness :
  dispatch SubmitCreateForm (mount sample_env) = mount sample_env.
Proof.
  apply (empty_title_form_not_submitted SubmitCreateForm (mount sample_env)).
  reflexivity.
Defined.

(** ** The displayed status *)

(** The counters count the tasks whose [completed] is the boolean [true],
    respectively [false]: a task whose [completed] is neither is in
    neither, and the two add up to the total exactly when every flag is a
    boolean. *)
Lemma counters_count_booleans l :
  (completed_count l + pending_count l <= total_count l)%nat
  /\ (completed_count l + pending_count l = total_count l
      <-> Forall (fun task => is_Some (task_completed task)) l).
Proof.
  unfold completed_count, pending_count, total_count.
  induction l as [| t l (IH1 & IH2)]; simpl.
  - split; [lia |]. split; [constructor | reflexivity].
  - rewrite Forall_cons.
    assert (Ht : completed_is true t = true /\ completed_is false t = false
                 /\ is_Some (task_completed t)
              \/ completed_is true t = false /\ completed_is false t = true
                 /\ is_Some (task_completed t)
              \/ completed_is true t = false /\ completed_is false t = false
                 /\ task_completed t = None).
    { unfold completed_is. destruct (task_completed t) as [[|] |]; eauto 10. }
    destruct Ht as [(-> & -> & Hs) | [(-> & -> & Hs) | (-> & -> & Hn)]];
      simpl.
    + split; [lia |].
      split; [intros H; split; [done | apply IH2; lia]
             | intros [_ H]; apply IH2 in H; lia].
    + split; [lia |].
      split; [intros H; split; [done | apply IH2; lia]
             | intros [_ H]; apply IH2 in H; lia].
    + split; [lia |]. rewrite Hn.
      split; [intros H; lia | intros [[? H] _]; discriminate].
Qed.

(** C5, as stated, fails: a task with [completed: true] whose [status] is
    "IN_PROGRESS" is displayed as IN_PROGRESS, a third value, and not as
    COMPLETED. *)
Lemma displayed_status_not_derived :
  task_completed other_task = Some true
  /\ row_status (render_task other_task) = Some "IN_PROGRESS"
  /\ row_status (render_task other_task) <> Some (status_of_flag true).
Proof. repeat split. discriminate. Qed.

(** C5, as amended.  The status displayed for each task of the collection
    is its own [status] field, as received; the badge is green exactly when
    that field is "COMPLETED"; the displayed status is the one derived from
    the completion flag exactly when the [status] field is. *)
Theorem displayed_status_is_status_field (l : list Task) (task : Task) :
  map row_status (map render_task l) = map task_status l
  /\ (row_badge (render_task task) = badge_completed
      <-> task_status task = Some "COMPLETED")
  /\ (forall b, task_completed task = Some b ->
        (row_status (render_task task) = Some (status_of_flag b)
         <-> task_status task = Some (status_of_flag b))).
Proof.
  split; [| split].
  - rewrite map_map. reflexivity.
  - unfold render_task, status_is. simpl.
    destruct (task_status task) as [s |]; simpl.
    + destruct (String.eqb_spec s "COMPLETED") as [-> | Hne].
      * split; auto.
      * split; [discriminate | congruence].
    + split; discriminate.
  - reflexivity.
Qed.

(** ** The busy flag *)

(** The handlers themselves do not read the busy flag: called while a
    create is in flight, [handleDeleteTask] would send its DELETE.  Its
    only call site is the "Delete" button, which is disabled then. *)
Lemma busy_handler_still_sends :
  isLoading creating = true
  /\ length (pending (env creating)) = 1%nat
  /\ net (env (handleDeleteTask 1 true creating))
     = net (env creating)
       ++ [{| req_method := DELETE; req_url := TaskUrl 1;
              req_bearer := "abc"; req_body := None |}]
  /\ length (pending (env (handleDeleteTask 1 true creating))) = 2%nat.
Proof. repeat split. Qed.

(** C6.  While the busy flag is set, an operation asked for through any of
    the controls that start a create, an update or a delete ("+ Add Task",
    "Save Changes", "Edit", "Delete", which are the only call sites of the
    handlers) is refused locally: the world is unchanged, so no request is
    issued, nothing is queued and the operation in flight is not
    disturbed. *)
Theorem busy_controls_disabled ev w :
  isLoading w = true ->
  starts_operation ev ->
  dispatch ev w = w.
Proof.
  intros E. destruct ev; simpl; try done; intros _; rewrite E; try done.
  by destruct (negb _).
Qed.

Lemma busy_controls_disabled_witness :
  dispatch (ClickDelete sample_task true) creating = creating.
Proof.
  apply (busy_controls_disabled (ClickDelete sample_task true) creating).
  - reflexivity.
  - exact I.
Defined.

Lemma fetchTasks_single_flight c w :
  pending (env w) = [] -> single_flight (fetchTasks c w).
Proof.
  intros Hq. unfold fetchTasks, fetchWithAuth_call. simpl.
  destruct (truthy_opt (getItem "token" (env w))); simpl.
  - right. split; [reflexivity |].
    unfold with_env, issue. simpl. rewrite Hq. simpl. eauto.
  - left. by destruct c.
Qed.

Ltac issue_or_stop Hq E :=
  unfold fetchWithAuth_call; simpl;
  match goal with
  | |- context [truthy_opt (getItem "token" (env ?w))] =>
      destruct (truthy_opt (getItem "token" (env w))) eqn:E; simpl
  end;
  [ right; split; [reflexivity |];
    unfold with_env, issue; simpl; rewrite Hq; simpl; eauto
  | by apply fetchTasks_single_flight ].

Lemma handleCreateTask_single_flight w :
  pending (env w) = [] -> single_flight (handleCreateTask w).
Proof. intros Hq. unfold handleCreateTask. issue_or_stop Hq E. Qed.

Lemma handleDeleteTask_single_flight taskId confirmed w :
  pending (env w) = [] -> single_flight (handleDeleteTask taskId confirmed w).
Proof.
  intros Hq. unfold handleDeleteTask.
  destruct confirmed; simpl; [| by left].
  issue_or_stop Hq E.
Qed.

Lemma handleUpdateTask_single_flight w :
  pending (env w) = [] -> single_flight (handleUpdateTask w).
Proof.
  intros Hq. unfold handleUpdateTask.
  destruct (editingTaskId (edit w)) as [taskId |]; [| by left].
  destruct (negb _); [by left |].
  issue_or_stop Hq E.
Qed.

Lemma resume_single_flight k s w :
  pending (env w) = [] -> single_flight (resume k s w).
Proof.
  intros Hq. destruct k as [c | | |], s as [d | msg]; simpl;
    try (left; exact Hq);
    try (apply fetchTasks_single_flight; exact Hq).
  - left. unfold fetchTasks_settled. by destruct c, (truthy d).
  - left. by destruct c.
Qed.

Lemma deliver_single_flight i o w :
  single_flight w -> single_flight (deliver i o w).
Proof.
  intros Hw. unfold deliver, deliver_settled.
  destruct (pending (env w) !! i) as [p |] eqn:Hp; [| exact Hw].
  destruct Hw as [Hq | (_ & q & Hq)]; [by rewrite Hq in Hp |].
  destruct (fetchWithAuth_settle o _) as [w1 s] eqn:Hs. simpl.
  apply resume_single_flight.
  change w1 with (fst (w1, s)). rewrite <- Hs, settle_pending. simpl.
  rewrite Hq in *. by destruct i as [| [| ?]].
Qed.

Lemma idle_when_not_loading w :
  single_flight w -> isLoading w = false -> pending (env w) = [].
Proof. intros [Hq | (E & _)] E'; [exact Hq | congruence]. Qed.

Lemma dispatch_single_flight ev w :
  single_flight w -> single_flight (dispatch ev w).
Proof.
  intros Hw. destruct ev; simpl; try exact Hw.
  - destruct (isLoading w) eqn:E; [exact Hw |].
    destruct (String.eqb _ _); [exact Hw |].
    by apply handleCreateTask_single_flight, idle_when_not_loading.
  - by destruct (isLoading w).
  - destruct (isLoading w) eqn:E; [exact Hw |].
    by apply handleDeleteTask_single_flight, idle_when_not_loading.
  - destruct (negb _); [exact Hw |].
    destruct (isLoading w) eqn:E; [exact Hw |].
    destruct (String.eqb _ _); [exact Hw |].
    by apply handleUpdateTask_single_flight, idle_when_not_loading.
Qed.

(** Driven through its controls from its mount, the Dashboard never has
    two requests in flight, and the busy flag is set whenever one is. *)
Lemma single_flight_run (sts : list Step) e :
  pending e = [] ->
  single_flight (foldl (fun w st => step st w)
                   (fetchTasks FromEffect (mount e)) sts).
Proof.
  intros Hq.
  assert (H0 : single_flight (fetchTasks FromEffect (mount e)))
    by (by apply fetchTasks_single_flight).
  revert H0. generalize (fetchTasks FromEffect (mount e)).
  induction sts as [| st sts IH]; intros w Hw; simpl; [exact Hw |].
  apply IH. destruct st; simpl.
  - by apply dispatch_single_flight.
  - by apply deliver_single_flight.
  - exact Hw.
Qed.

(** ** The edit session *)

Lemma completedStatus_of_true s :
  completedStatus_of s = true <-> s = Some "COMPLETED".
Proof.
  unfold completedStatus_of. destruct s as [s |]; [| split; discriminate].
  destruct (String.eqb_spec s "COMPLETED") as [-> | Hne].
  - split; auto.
  - destruct (String.eqb s "PENDING"); split; try discriminate; congruence.
Qed.

(** What [handleUpdateTask] does when it does send. *)
Lemma handleUpdateTask_sends w taskId :
  editingTaskId (edit w) = Some taskId ->
  taskId <> 0%Z ->
  truthy_opt (getItem "token" (env w)) = true ->
  handleUpdateTask w
  = with_env
      (issue {| req_method := PUT; req_url := TaskUrl taskId;
                req_bearer := default "" (getItem "token" (env w));
                req_body :=
                  Some {| body_title := editTaskTitle (edit w);
                          body_description := editTaskDescription (edit w);
                          body_completed :=
                            completedStatus_of (editTaskStatus (edit w)) |} |}
             KUpdate)
      (setError None (setIsLoading true w)).
Proof.
  intros Hid Hne Htok. unfold handleUpdateTask. rewrite Hid. simpl.
  destruct (Z.eqb_spec taskId 0) as [-> | _]; [done |]. simpl.
  rewrite call_with_token by exact Htok. reflexivity.
Qed.

(** C9.  Whenever an update is sent (an edit is open on a task with a
    truthy id and a token is stored), whatever the status choice is, the
    PUT is issued, and its [completed] flag is [true] exactly when the
    status choice is the string "COMPLETED": "PENDING", any other string
    and an absent status all give [false]. *)
Theorem update_status_mapping w taskId :
  editingTaskId (edit w) = Some taskId ->
  taskId <> 0%Z ->
  truthy_opt (getItem "token" (env w)) = true ->
  exists completed,
    net (env (handleUpdateTask w))
    = net (env w)
      ++ [{| req_method := PUT; req_url := TaskUrl taskId;
             req_bearer := default "" (getItem "token" (env w));
             req_body :=
               Some {| body_title := editTaskTitle (edit w);
                       body_description := editTaskDescription (edit w);
                       body_completed := completed |} |}]
    /\ (completed = true <-> editTaskStatus (edit w) = Some "COMPLETED")
    /\ (completed = false <-> editTaskStatus (edit w) <> Some "COMPLETED").
Proof.
  intros Hid Hne Htok.
  exists (completedStatus_of (editTaskStatus (edit w))).
  rewrite (handleUpdateTask_sends _ _ Hid Hne Htok).
  split; [reflexivity |].
  pose proof (completedStatus_of_true (editTaskStatus (edit w))) as H.
  split; [exact H |].
  destruct (completedStatus_of _); split; intros; try congruence.
  - destruct H as [H _]. specialize (H eq_refl). congruence.
  - intros Hc. apply H in Hc. discriminate.
Qed.

(** The unknown status "DONE" is sent as [completed: false]. *)
Lemma update_status_mapping_witness :
  let w := type_draft "X" (Some "") (Some "DONE")
             (handleStartEdit sample_task (mount sample_env)) in
  exists completed,
    net (env (handleUpdateTask w))
    = [{| req_method := PUT; req_url := TaskUrl 1; req_bearer := "abc";
          req_body := Some {| body_title := "X";
                              body_description := Some "";
                              body_completed := completed |} |}]
    /\ completed = false.
Proof.
  intros w.
  destruct (update_status_mapping w 1) as (c & Hn & _ & Hf).
  - reflexivity.
  - lia.
  - reflexivity.
  - exists c. split; [exact Hn |]. apply Hf. discriminate.
Defined.

(** C7.  An edit is started on task A and its draft typed into; then,
    before any save, an edit is started on task B (whose id is truthy).
    The edit cells are then B's, exactly as if A had never been edited: A's
    draft is gone, and nothing asked for it.  Saving, with whatever was
    typed into B's draft, sends one request, the PUT of B's draft to B's
    URL; and once the gateway resolves that request the edit session is
    closed ([editingTaskId] is [null]). *)
Theorem edit_session_last_writer_wins
    (A B : Task) tA dA sA tB dB sB (o : NetOutcome) (w : World) :
  task_id B <> 0%Z ->
  truthy_opt (getItem "token" (env w)) = true ->
  (exists d, forall v, snd (fetchWithAuth_settle o v) = Resolved d) ->
  let draftA := type_draft tA dA sA (handleStartEdit A w) in
  let startB := handleStartEdit B draftA in
  let saved := handleUpdateTask (type_draft tB dB sB startB) in
  (startB = handleStartEdit B w
   /\ edit startB = {| editingTaskId := Some (task_id B);
                       editTaskTitle := task_title B;
                       editTaskDescription := task_description B;
                       editTaskStatus := task_status B |})
  /\ net (env saved)
     = net (env w)
       ++ [{| req_method := PUT; req_url := TaskUrl (task_id B);
              req_bearer := default "" (getItem "token" (env w));
              req_body := Some {| body_title := tB;
                                  body_description := dB;
                                  body_completed := completedStatus_of sB |} |}]
  /\ editingTaskId (edit (deliver (length (pending (env w))) o saved)) = None.
Proof.
  intros Hid Htok (d & Hd) draftA startB saved.
  split; [split; reflexivity |].
  set (rq := {| req_method := PUT; req_url := TaskUrl (task_id B);
                req_bearer := default "" (getItem "token" (env w));
                req_body := Some {| body_title := tB;
                                    body_description := dB;
                                    body_completed := completedStatus_of sB |} |}).
  assert (Hs : saved = with_env (issue rq KUpdate)
      (setError None (setIsLoading true (type_draft tB dB sB startB)))).
  { unfold saved.
    rewrite (handleUpdateTask_sends _ (task_id B));
      [reflexivity | reflexivity | exact Hid | exact Htok]. }
  split; [by rewrite Hs |].
  unfold deliver, deliver_settled.
  assert (Hl : pending (env saved) !! length (pending (env w))
               = Some {| p_req := rq; p_kont := KUpdate |}).
  { rewrite Hs. unfold with_env, issue. simpl.
    rewrite lookup_app_r by lia. by rewrite Nat.sub_diag. }
  rewrite Hl.
  destruct (fetchWithAuth_settle o _) as [w1 s] eqn:Hset.
  pose proof (Hd (with_env
                    (fun e => set_pending
                                (delete (length (pending (env w))) (pending e)) e)
                    saved)) as Hd'.
  rewrite Hset in Hd'. simpl in Hd'. subst s.
  apply settle_resolved in Hset. subst w1. simpl.
  by rewrite fetchTasks_edit.
Qed.

(** Task 1 is being edited, then task 2; the save of task 2 is answered
    204. *)
Lemma edit_session_last_writer_wins_witness :
  let saved :=
    handleUpdateTask
      (type_draft "Y2" None (Some "COMPLETED")
         (handleStartEdit other_task
            (type_draft "X2" (Some "") (Some "PENDING")
               (handleStartEdit sample_task (mount sample_env))))) in
  net (env saved)
  = [{| req_method := PUT; req_url := TaskUrl 2; req_bearer := "abc";
        req_body := Some {| body_title := "Y2"; body_description := None;
                            body_completed := true |} |}]
  /\ editingTaskId (edit (deliver 0 (status_only 204) saved)) = None.
Proof.
  destruct (edit_session_last_writer_wins sample_task other_task
              "X2" (Some "") (Some "PENDING") "Y2" None (Some "COMPLETED")
              (status_only 204) (mount sample_env)) as (_ & Hn & Hi).
  - simpl. lia.
  - reflexivity.
  - exists DNull. intros v. reflexivity.
  - split; [exact Hn | exact Hi].
Defined.

(** ** Logout *)

(** C10.  With a non-empty remembered identifier in the storage, logout
    deletes the token key and nothing else: every other key reads as
    before.  The session flag is off, the login view is asked for and is
    the page shown; the login form mounts exactly as it would have before
    the logout, its email field holding the remembered identifier and its
    remember-me box ticked. *)
Theorem logout_keeps_remembered_email e s :
  getItem "rememberedEmail" e = Some s ->
  s <> "" ->
  localStorage (handleLogout e) = delete "token" (localStorage e)
  /\ (forall k, k <> "token" -> getItem k (handleLogout e) = getItem k e)
  /\ isAuthenticated (handleLogout e) = false
  /\ nav (handleLogout e) = nav e ++ ["/login"]
  /\ page_shown "/login" (isAuthenticated (handleLogout e)) = LoginPage
  /\ Login_mount (handleLogout e) = Login_mount e
  /\ email (Login_mount (handleLogout e)) = s
  /\ rememberMe (Login_mount (handleLogout e)) = true.
Proof.
  intros Hs Hne.
  assert (Hk : forall k, k <> "token" ->
                 getItem k (handleLogout e) = getItem k e).
  { intros k Hk. unfold getItem. simpl. by rewrite lookup_delete_ne. }
  assert (Ha : isAuthenticated (handleLogout e) = false).
  { unfold handleLogout, updateAuthStatus, getItem. simpl.
    by rewrite lookup_delete_eq. }
  assert (Hm : Login_mount (handleLogout e) = Login_mount e).
  { unfold Login_mount. by rewrite Hk. }
  assert (Ht : truthy_string s = true).
  { unfold truthy_string. by destruct (String.eqb_spec s ""). }
  repeat split; try done.
  - by rewrite Ha.
  - rewrite Hm. unfold Login_mount. rewrite Hs. simpl. by rewrite Ht.
  - rewrite Hm. unfold Login_mount. rewrite Hs. simpl. by rewrite Ht.
Qed.

(** After a login with "remember me" ticked, then a logout. *)
Lemma logout_keeps_remembered_email_witness :
  getItem "token" remembered_env = Some "abc"
  /\ getItem "token" (handleLogout remembered_env) = None
  /\ getItem "rememberedEmail" (handleLogout remembered_env)
     = Some "ann@example.org"
  /\ email (Login_mount (handleLogout remembered_env)) = "ann@example.org"
  /\ rememberMe (Login_mount (handleLogout remembered_env)) = true.
Proof.
  destruct (logout_keeps_remembered_email remembered_env "ann@example.org")
    as (Hl & Hk & _ & _ & _ & _ & He & Hr).
  - reflexivity.
  - discriminate.
  - split; [reflexivity |]. split.
    + unfold getItem. rewrite Hl. apply lookup_delete_eq.
    + split; [| split; [exact He | exact Hr]].
      rewrite Hk by discriminate. reflexivity.
Defined.

(** * Further properties *)

(** ** More on the gateway *)

Lemma or_else_truthy o d :
  truthy_string d = true -> truthy_string (or_else o d) = true.
Proof.
  intros Hd. unfold or_else. destruct o as [s |]; [| exact Hd].
  by destruct (truthy_string s) eqn:E.
Qed.

Lemma truthy_string_nonempty s : truthy_string s = true <-> s <> "".
Proof.
  unfold truthy_string. destruct (String.eqb_spec s ""); split; try done.
Qed.

Lemma http_error_message_truthy r :
  truthy_string (http_error_message r) = true.
Proof.
  unfold http_error_message.
  repeat case_match; repeat apply or_else_truthy; reflexivity.
Qed.

(** X1.  Whenever the gateway call rejects with a message other than
    "Unauthorized", the message slot holds a non-empty text: the thrown
    message itself, or the generic text when the thrown message is empty.
    The storage, the navigation and the collection are as before. *)
Theorem failed_call_shows_message o w w' msg :
  fetchWithAuth_settle o w = (w', Rejected msg) ->
  msg <> "Unauthorized" ->
  exists m, error w' = Some m /\ m <> ""
            /\ (msg <> "" -> m = msg)
            /\ (msg = "" -> m = msg_generic)
            /\ env w' = env w /\ tasks w' = tasks w.
Proof.
  intros Hs Hne.
  assert (Hw : w' = setError (Some (or_else (Some msg) msg_generic)) w).
  { revert Hs. unfold fetchWithAuth_settle, api_call_failed.
    destruct o as [m | r].
    - destruct (String.eqb_spec m "Unauthorized"); intros [= <- <-]; done.
    - repeat case_match; try discriminate; intros [= <- <-]; try done;
        match goal with
        | H : String.eqb _ "Unauthorized" = true |- _ =>
            apply String.eqb_eq in H; congruence
        end. }
  subst w'. eexists. split; [reflexivity |].
  split; [| split; [| split]].
  - apply truthy_string_nonempty, or_else_truthy. reflexivity.
  - intros Hm. simpl. by apply truthy_string_nonempty in Hm as ->.
  - by intros ->.
  - done.
Qed.

Lemma step_effect_env w w' : env w' = env w -> step_effect w w'.
Proof.
  intros He. unfold step_effect. rewrite He.
  repeat split; [by left | | ]; exists []; rewrite app_nil_r; auto.
Qed.

Lemma bearer_of_token o :
  truthy_opt o = true -> truthy_string (default "" o) = true.
Proof. by destruct o. Qed.

Lemma fetchTasks_effect c w : step_effect w (fetchTasks c w).
Proof.
  unfold fetchTasks, fetchWithAuth_call. simpl.
  destruct (truthy_opt (getItem "token" (env w))) eqn:E; simpl.
  - repeat split; simpl; [by left | exists []; by rewrite app_nil_r |].
    eexists. split; [reflexivity |]. split; [simpl; lia |].
    repeat constructor. by apply bearer_of_token.
  - assert (He : env (caller_resumes c (fetchTasks_settled (Resolved DUndefined)
               (with_env (navigate "/login")
                 (setError (Some msg_no_token) (setError None (setIsLoading true w))))))
             = navigate "/login" (env w)) by (by destruct c).
    unfold step_effect. rewrite He. simpl.
    repeat split; [by left | |].
    + eexists. split; [reflexivity |]. by repeat constructor.
    + exists []. rewrite app_nil_r. auto.
Qed.

Ltac issue_or_reload E :=
  unfold fetchWithAuth_call; simpl;
  match goal with
  | |- context [truthy_opt (getItem "token" (env ?w))] =>
      destruct (truthy_opt (getItem "token" (env w))) eqn:E; simpl
  end;
  [ repeat split; simpl; [by left | exists []; by rewrite app_nil_r |];
    eexists; (split; [reflexivity |]); (split; [simpl; lia |]);
    repeat constructor; by apply bearer_of_token
  | unfold fetchTasks; rewrite call_without_token by (simpl; exact E);
    unfold step_effect; simpl;
    repeat split; [by left | |];
    [ eexists; (split; [rewrite <- app_assoc; reflexivity |]);
      by repeat constructor
    | exists []; rewrite app_nil_r; auto ] ].

Lemma handleCreateTask_effect w : step_effect w (handleCreateTask w).
Proof. unfold handleCreateTask, handleCreateTask_settled. issue_or_reload E. Qed.

Lemma handleDeleteTask_effect taskId confirmed w :
  step_effect w (handleDeleteTask taskId confirmed w).
Proof.
  unfold handleDeleteTask, handleDeleteTask_settled.
  destruct confirmed; simpl; [| by apply step_effect_env].
  issue_or_reload E.
Qed.

Lemma handleUpdateTask_effect w : step_effect w (handleUpdateTask w).
Proof.
  unfold handleUpdateTask, handleUpdateTask_settled.
  destruct (editingTaskId (edit w)) as [taskId |]; [| by apply step_effect_env].
  destruct (negb _); [by apply step_effect_env |].
  issue_or_reload E.
Qed.

Lemma dispatch_effect ev w : step_effect w (dispatch ev w).
Proof.
  destruct ev; simpl; try (by apply step_effect_env).
  - destruct (isLoading w); [by apply step_effect_env |].
    destruct (String.eqb _ _); [by apply step_effect_env |].
    apply handleCreateTask_effect.
  - destruct (isLoading w); by apply step_effect_env.
  - destruct (isLoading w); [by apply step_effect_env |].
    apply handleDeleteTask_effect.
  - destruct (negb _); [by apply step_effect_env |].
    destruct (isLoading w); [by apply step_effect_env |].
    destruct (String.eqb _ _); [by apply step_effect_env |].
    apply handleUpdateTask_effect.
Qed.

(** A call that rejects has either left the environment alone or done the
    forced logout. *)
Lemma settle_rejected_env o w w' msg :
  fetchWithAuth_settle o w = (w', Rejected msg) ->
  env w' = env w
  \/ ((exists r, o = Responds r /\ is_unauthorized r)
      /\ env w' = navigate "/login" (removeItem "token" (env w))).
Proof.
  unfold fetchWithAuth_settle, api_call_failed.
  destruct o as [m | r].
  - intros [= <- _]. left. by case_match.
  - destruct ((resp_status r =? 401)%Z || (resp_status r =? 403)%Z) eqn:E.
    + intros [= <- _]. right. split; [| reflexivity].
      exists r. split; [reflexivity |]. unfold is_unauthorized.
      apply orb_true_iff in E. destruct E as [E | E]; apply Z.eqb_eq in E; auto.
    + repeat (case_match; try discriminate); intros [= <- _]; by left.
Qed.

Lemma step_effect_transfer w0 w w' :
  localStorage (env w0) = localStorage (env w) ->
  isAuthenticated (env w0) = isAuthenticated (env w) ->
  nav (env w0) = nav (env w) ->
  net (env w0) = net (env w) ->
  step_effect w0 w' -> step_effect w w'.
Proof. unfold step_effect. by intros -> -> -> ->. Qed.

Lemma deliver_effect i o w : step_effect w (deliver i o w).
Proof.
  unfold deliver, deliver_settled.
  destruct (pending (env w) !! i) as [p |]; [| by apply step_effect_env].
  set (w0 := with_env (fun e => set_pending (delete i (pending e)) e) w).
  apply (step_effect_transfer w0); try reflexivity.
  destruct (fetchWithAuth_settle o w0) as [w1 [d | msg]] eqn:Hs; simpl.
  - apply settle_resolved in Hs. subst w1.
    destruct (p_kont p) as [c | | |]; simpl.
    + apply step_effect_env. unfold fetchTasks_settled.
      by destruct c, (truthy d).
    + eapply step_effect_transfer; [.. | apply fetchTasks_effect]; reflexivity.
    + eapply step_effect_transfer; [.. | apply fetchTasks_effect]; reflexivity.
    + eapply step_effect_transfer; [.. | apply fetchTasks_effect]; reflexivity.
  - destruct (resume_rejected_frame (p_kont p) msg w1) as (He & _).
    unfold step_effect. rewrite He.
    destruct (settle_rejected_env _ _ _ _ Hs) as [-> | (_ & ->)].
    + repeat split; [by left | |]; exists []; rewrite app_nil_r; auto.
    + simpl. repeat split; [by right | |].
      * exists ["/login"]. split; [reflexivity |]. by repeat constructor.
      * exists []. rewrite app_nil_r. auto.
Qed.

Lemma dashboard_step_effect st w :
  dashboard_step st -> step_effect w (step st w).
Proof.
  destruct st; simpl; [intros _; apply dispatch_effect
                      | intros _; apply deliver_effect | done].
Qed.

(** X4.  Whatever the user does in the Dashboard and however its requests
    settle, no storage key other than the token is touched, the token is
    either as before or removed (never written), and the session flag of
    [App] is as before. *)
Theorem dashboard_storage_frame (sts : list Step) (w : World) :
  Forall dashboard_step sts ->
  (forall k, k <> "token" ->
     getItem k (env (run sts w)) = getItem k (env w))
  /\ (getItem "token" (env (run sts w)) = getItem "token" (env w)
      \/ getItem "token" (env (run sts w)) = None)
  /\ isAuthenticated (env (run sts w)) = isAuthenticated (env w).
Proof.
  intros Hs. revert w.
  induction Hs as [| st sts Hst _ IH]; intros w; simpl.
  - auto.
  - destruct (IH (step st w)) as (Hk & Ht & Ha).
    destruct (dashboard_step_effect st w Hst) as (Hl & Hf & _).
    unfold run in *. unfold getItem in *.
    split; [| split].
    + intros k Hne. rewrite Hk by done.
      destruct Hl as [-> | ->]; [done | by rewrite lookup_delete_ne].
    + destruct Ht as [-> | ->]; [| by right].
      destruct Hl as [-> | ->]; [by left | right; apply lookup_delete_eq].
    + by rewrite Ha.
Qed.

(** X5.  Along any run the Dashboard navigates nowhere but to the login
    view. *)
Theorem dashboard_navigates_only_to_login (sts : list Step) (w : World) :
  exists l, nav (env (run sts w)) = nav (env w) ++ l
            /\ Forall (eq "/login") l.
Proof.
  revert w. induction sts as [| st sts IH]; intros w; simpl.
  - exists []. by rewrite app_nil_r.
  - destruct (IH (step st w)) as (l2 & Hn2 & Hf2).
    assert (H1 : exists l1, nav (env (step st w)) = nav (env w) ++ l1
                            /\ Forall (eq "/login") l1).
    { destruct st as [ev | i o | s].
      - by destruct (dispatch_effect ev w) as (_ & _ & H & _).
      - by destruct (deliver_effect i o w) as (_ & _ & H & _).
      - exists []. by rewrite app_nil_r. }
    destruct H1 as (l1 & Hn1 & Hf1).
    exists (l1 ++ l2). unfold run in *. rewrite Hn2, Hn1, app_assoc.
    split; [done |]. by apply Forall_app.
Qed.

(** X6.  Every request the Dashboard issues bears a non-empty token (if
    those issued before did), and no step issues more than one. *)
Theorem requests_bear_a_token (sts : list Step) (w : World) :
  Forall bearer_present (net (env w)) ->
  Forall bearer_present (net (env (run sts w)))
  /\ (length (net (env (run sts w))) <= length (net (env w)) + length sts)%nat.
Proof.
  revert w. induction sts as [| st sts IH]; intros w Hw; simpl.
  - split; [done | lia].
  - assert (H1 : exists rs, net (env (step st w)) = net (env w) ++ rs
                   /\ (length rs <= 1)%nat /\ Forall bearer_present rs).
    { destruct st as [ev | i o | s].
      - by destruct (dispatch_effect ev w) as (_ & _ & _ & H).
      - by destruct (deliver_effect i o w) as (_ & _ & _ & H).
      - exists []. rewrite app_nil_r. auto. }
    destruct H1 as (rs & Hn & Hl & Hb).
    destruct (IH (step st w)) as (Hf & Hlen).
    { rewrite Hn. by apply Forall_app. }
    split; [exact Hf |].
    unfold run in *. rewrite Hn, length_app in Hlen. lia.
Qed.

(** ** The busy flag, exactly *)

Lemma fetchTasks_busy c w :
  pending (env w) = [] -> busy_exact (fetchTasks c w).
Proof.
  intros Hq. unfold fetchTasks, fetchWithAuth_call. simpl.
  destruct (truthy_opt (getItem "token" (env w))); simpl.
  - right. split; [reflexivity |].
    unfold with_env, issue. simpl. rewrite Hq. simpl. eauto.
  - left. by destruct c.
Qed.

Ltac busy_issue_or_stop Hq E :=
  unfold fetchWithAuth_call; simpl;
  match goal with
  | |- context [truthy_opt (getItem "token" (env ?w))] =>
      destruct (truthy_opt (getItem "token" (env w))) eqn:E; simpl
  end;
  [ right; split; [reflexivity |];
    unfold with_env, issue; simpl; rewrite Hq; simpl; eauto
  | by apply fetchTasks_busy ].

Lemma handleCreateTask_busy w :
  pending (env w) = [] -> busy_exact (handleCreateTask w).
Proof. intros Hq. unfold handleCreateTask. busy_issue_or_stop Hq E. Qed.

Lemma handleDeleteTask_busy taskId w :
  pending (env w) = [] -> busy_exact (handleDeleteTask taskId true w).
Proof. intros Hq. unfold handleDeleteTask. simpl. busy_issue_or_stop Hq E. Qed.

Lemma handleUpdateTask_busy w taskId :
  pending (env w) = [] ->
  editingTaskId (edit w) = Some taskId -> taskId <> 0%Z ->
  busy_exact (handleUpdateTask w).
Proof.
  intros Hq Hid Hne. unfold handleUpdateTask. rewrite Hid. simpl.
  destruct (Z.eqb_spec taskId 0); [done |]. simpl.
  busy_issue_or_stop Hq E.
Qed.

Lemma resume_busy k s w :
  pending (env w) = [] -> busy_exact (resume k s w).
Proof.
  intros Hq. destruct k as [c | | |], s as [d | msg]; simpl;
    try (left; split; [reflexivity | exact Hq]);
    try (apply fetchTasks_busy; exact Hq).
  - left. unfold fetchTasks_settled. by destruct c, (truthy d).
  - left. by destruct c.
Qed.

Lemma deliver_busy i o w : busy_exact w -> busy_exact (deliver i o w).
Proof.
  intros Hw. unfold deliver, deliver_settled.
  destruct (pending (env w) !! i) as [p |] eqn:Hp; [| exact Hw].
  destruct Hw as [(_ & Hq) | (_ & q & Hq)]; [by rewrite Hq in Hp |].
  destruct (fetchWithAuth_settle o _) as [w1 s] eqn:Hs. simpl.
  apply resume_busy.
  change w1 with (fst (w1, s)). rewrite <- Hs, settle_pending. simpl.
  rewrite Hq in *. by destruct i as [| [| ?]].
Qed.

Lemma busy_exact_same w w' :
  isLoading w' = isLoading w -> pending (env w') = pending (env w) ->
  busy_exact w -> busy_exact w'.
Proof. unfold busy_exact. by intros -> ->. Qed.

Lemma dispatch_busy ev w : busy_exact w -> busy_exact (dispatch ev w).
Proof.
  intros Hw.
  assert (Hidle : isLoading w = false -> pending (env w) = []).
  { destruct Hw as [(_ & Hq) | (E & _)]; [done | congruence]. }
  destruct ev; simpl; try exact Hw.
  - destruct (isLoading w) eqn:E; [exact Hw |].
    destruct (String.eqb _ _); [exact Hw |].
    by apply handleCreateTask_busy, Hidle.
  - by destruct (isLoading w).
  - destruct (isLoading w) eqn:E; [exact Hw |].
    destruct confirmed; [| exact Hw].
    by apply handleDeleteTask_busy, Hidle.
  - destruct (editingTaskId (edit w)) as [taskId |] eqn:Hid; simpl;
      [| exact Hw].
    destruct (Z.eqb_spec taskId 0); simpl; [exact Hw |].
    destruct (isLoading w) eqn:E; [exact Hw |].
    destruct (String.eqb _ _); [exact Hw |].
    by apply (handleUpdateTask_busy w taskId); [apply Hidle | |].
Qed.

Lemma step_busy st w : busy_exact w -> busy_exact (step st w).
Proof.
  destruct st; simpl; [apply dispatch_busy | apply deliver_busy | done].
Qed.

(** X7.  Driven through its controls from its mount, the Dashboard has the
    busy flag set exactly when a request is in flight, and never more than
    one request in flight: the flag is released as soon as the last answer
    has been handled. *)
Theorem busy_flag_tracks_flight (sts : list Step) (e : Env) :
  pending e = [] ->
  let w := run sts (fetchTasks FromEffect (mount e)) in
  (isLoading w = true <-> pending (env w) <> [])
  /\ (length (pending (env w)) <= 1)%nat.
Proof.
  intros Hq w.
  assert (H : busy_exact w).
  { unfold w, run.
    assert (H0 : busy_exact (fetchTasks FromEffect (mount e)))
      by (by apply fetchTasks_busy).
    revert H0. generalize (fetchTasks FromEffect (mount e)).
    induction sts as [| st sts IH]; intros w0 Hw; simpl; [exact Hw |].
    by apply IH, step_busy. }
  destruct H as [(E & ->) | (E & p & ->)]; rewrite E; simpl.
  - split; [| lia]. split; [discriminate | done].
  - split; [| lia]. split; [discriminate | done].
Qed.

(** ** The collection changes only on a reload *)


Lemma fetchTasks_form c w : form (fetchTasks c w) = form w.
Proof.
  unfold fetchTasks, fetchWithAuth_call. simpl.
  destruct (truthy_opt (getItem "token" (env w))); simpl; [reflexivity |].
  by destruct c.
Qed.



(** X2.  A call that rejects with the message "Unauthorized" without the
    response being a 401 or a 403 (a server error whose body says
    "Unauthorized", a network error with that message) changes nothing at
    all: no message is shown, the token stays, nothing is navigated to. *)
Theorem unauthorized_message_suppressed o w w' :
  ~ forces_logout o ->
  fetchWithAuth_settle o w = (w', Rejected "Unauthorized") ->
  w' = w.
Proof.
  intros Hn. unfold fetchWithAuth_settle, api_call_failed.
  destruct o as [m | r].
  - destruct (String.eqb_spec m "Unauthorized"); intros [= <- E]; congruence.
  - simpl in Hn.
    destruct ((resp_status r =? 401)%Z || (resp_status r =? 403)%Z) eqn:E.
    { exfalso. apply Hn. unfold is_unauthorized.
      apply orb_true_iff in E. destruct E as [E | E]; apply Z.eqb_eq in E; auto. }
    repeat (case_match; try discriminate); intros [= <- Hm]; try done;
      match goal with
      | H : String.eqb ?x "Unauthorized" = false |- _ =>
          apply String.eqb_neq in H; congruence
      end.
Qed.

Lemma unauthorized_message_suppressed_witness :
  fetchWithAuth_settle server_says_unauthorized loaded
  = (loaded, Rejected "Unauthorized").
Proof.
  assert (H : exists w', fetchWithAuth_settle server_says_unauthorized loaded
                         = (w', Rejected "Unauthorized")).
  { eexists. reflexivity. }
  destruct H as [w' H].
  rewrite H. f_equal.
  apply (unauthorized_message_suppressed server_says_unauthorized loaded w').
  - simpl. unfold is_unauthorized. simpl. lia.
  - exact H.
Defined.

(** X3.  The gateway resolves only for a response whose status is within
    200..299, and then it has changed nothing; for a 204, and for a
    content length of "0", it resolves to [null] whatever the body and the
    content type are. *)
Theorem resolves_only_on_2xx o w w' d :
  fetchWithAuth_settle o w = (w', Resolved d) ->
  w' = w
  /\ exists r, o = Responds r
       /\ (200 <= resp_status r <= 299)%Z
       /\ (resp_status r = 204%Z -> d = DNull)
       /\ (resp_content_length r = Some "0" -> d = DNull).
Proof.
  intros Hs. split; [by apply settle_resolved in Hs |].
  revert Hs. unfold fetchWithAuth_settle, api_call_failed.
  destruct o as [m | r]; [discriminate |].
  destruct (_ || _) eqn:E1; [discriminate |].
  destruct (resp_ok r) eqn:Hok; simpl; [| discriminate].
  intros Hs. exists r. split; [reflexivity |].
  split.
  { unfold resp_ok in Hok. apply andb_true_iff in Hok. lia. }
  destruct (zero_length r || (resp_status r =? 204)%Z) eqn:E2.
  - injection Hs as _ <-. auto.
  - apply orb_false_iff in E2 as [Hz H204].
    split.
    + intros H. apply Z.eqb_neq in H204. congruence.
    + intros H. unfold zero_length in Hz. rewrite H in Hz. discriminate.
Qed.

Lemma resolves_only_on_2xx_witness :
  exists r, status_only 204 = Responds r /\ (200 <= resp_status r <= 299)%Z.
Proof.
  destruct (resolves_only_on_2xx (status_only 204) loaded loaded DNull)
    as (_ & r & Hr & Hs & _).
  - reflexivity.
  - exists r. split; [exact Hr | exact Hs].
Defined.

(** ** The create form *)

(** X9.  When the answer to a create arrives, the edit cells are left
    alone; if the gateway resolves it the create form is back to its
    initial content, and if it rejects it the form still holds what was
    typed, the collection is unchanged, the busy flag is released and no
    reload is issued. *)
Theorem create_settles i p o w :
  pending (env w) !! i = Some p ->
  p_kont p = KCreate ->
  exists s, snd (deliver_settled i o w) = Some s
    /\ edit (deliver i o w) = edit w
    /\ match s with
       | Resolved _ => form (deliver i o w) = initial_form
       | Rejected _ => form (deliver i o w) = form w
                       /\ tasks (deliver i o w) = tasks w
                       /\ isLoading (deliver i o w) = false
                       /\ net (env (deliver i o w)) = net (env w)
       end.
Proof.
  intros Hp Hk. unfold deliver, deliver_settled. rewrite Hp, Hk.
  destruct (fetchWithAuth_settle o _) as [w1 [d | msg]] eqn:Hs; simpl.
  - apply settle_resolved in Hs. subst w1.
    eexists. split; [reflexivity |].
    by rewrite fetchTasks_edit, fetchTasks_form.
  - eexists. split; [reflexivity |].
    by destruct (settle_rejected_frame _ _ _ _ Hs) as (-> & -> & _ & -> & ->).
Qed.

Lemma create_settles_witness :
  form creating <> initial_form
  /\ form (deliver 0 (status_only 500) creating) = form creating
  /\ form (deliver 0 (status_only 201) creating) = initial_form.
Proof.
  split; [discriminate |]. split.
  - destruct (create_settles 0
      {| p_req := {| req_method := POST; req_url := TasksUrl;
                     req_bearer := "abc";
                     req_body := Some {| body_title := "t";
                                         body_description := Some "";
                                         body_completed := false |} |};
         p_kont := KCreate |} (status_only 500) creating)
      as (s & Hs & _ & H); [reflexivity | reflexivity |].
    assert (s = Rejected "HTTP error! Status: 500") as ->.
    { vm_compute in Hs. congruence. }
    tauto.
  - destruct (create_settles 0
      {| p_req := {| req_method := POST; req_url := TasksUrl;
                     req_bearer := "abc";
                     req_body := Some {| body_title := "t";
                                         body_description := Some "";
                                         body_completed := false |} |};
         p_kont := KCreate |} (status_only 201) creating)
      as (s & Hs & _ & H); [reflexivity | reflexivity |].
    assert (s = Resolved DNull) as ->.
    { vm_compute in Hs. congruence. }
    exact H.
Defined.

(** ** More on the edit session *)

(** X11.  Cancelling an edit touches neither the environment nor the
    collection; a save after it does nothing; and opening the edit on the
    same task again shows the task's own fields, the cancelled draft being
    gone. *)
Theorem cancel_discards_draft task t d s w :
  let cancelled := handleCancelEdit (type_draft t d s (handleStartEdit task w)) in
  env cancelled = env w
  /\ tasks cancelled = tasks w
  /\ handleUpdateTask cancelled = cancelled
  /\ dispatch SubmitEditForm cancelled = cancelled
  /\ handleStartEdit task cancelled = handleStartEdit task w.
Proof. repeat split. Qed.

(** X12.  With no edit open, or with one open on a task whose id is 0,
    saving does nothing, by the handler and by the form alike. *)
Theorem save_needs_open_edit w :
  truthy_id (editingTaskId (edit w)) = false ->
  handleUpdateTask w = w /\ dispatch SubmitEditForm w = w.
Proof.
  intros E. split.
  - unfold handleUpdateTask. destruct (editingTaskId (edit w)); [| done].
    by rewrite E.
  - simpl. by rewrite E.
Qed.

Lemma save_needs_open_edit_witness :
  handleUpdateTask (handleStartEdit zero_task (mount sample_env))
  = handleStartEdit zero_task (mount sample_env).
Proof.
  apply (save_needs_open_edit (handleStartEdit zero_task (mount sample_env))).
  reflexivity.
Defined.

(** X13.  Opening the edit on a task and saving at once sends the task's
    own title and description, and a [completed] flag that is [true]
    exactly when the task's [status] field is "COMPLETED": the flag sent
    is the task's own [completed] only if its [status] agrees with it. *)
Theorem untouched_save_sends_status task w :
  task_id task <> 0%Z ->
  truthy_opt (getItem "token" (env w)) = true ->
  exists completed,
    net (env (handleUpdateTask (handleStartEdit task w)))
    = net (env w)
      ++ [{| req_method := PUT; req_url := TaskUrl (task_id task);
             req_bearer := default "" (getItem "token" (env w));
             req_body := Some {| body_title := task_title task;
                                 body_description := task_description task;
                                 body_completed := completed |} |}]
    /\ (completed = true <-> task_status task = Some "COMPLETED")
    /\ (forall b, task_completed task = Some b ->
          (completed = b
           <-> (task_status task = Some "COMPLETED" <-> b = true)))
    /\ (task_completed task = None ->
          (completed = false <-> task_status task <> Some "COMPLETED")).
Proof.
  intros Hid Htok.
  exists (completedStatus_of (task_status task)).
  rewrite (handleUpdateTask_sends _ (task_id task)) by done.
  split; [reflexivity |].
  pose proof (completedStatus_of_true (task_status task)) as H.
  split; [exact H |]. split.
  - intros b _. destruct (completedStatus_of (task_status task)), b;
      intuition congruence.
  - intros _. destruct (completedStatus_of (task_status task));
      intuition congruence.
Qed.

Lemma untouched_save_sends_status_witness :
  task_completed bare_task = Some true
  /\ exists completed,
       net (env (handleUpdateTask (handleStartEdit bare_task (mount sample_env))))
       = [{| req_method := PUT; req_url := TaskUrl 3; req_bearer := "abc";
             req_body := Some {| body_title := "B";
                                 body_description := Some "b";
                                 body_completed := completed |} |}]
       /\ completed <> true.
Proof.
  split; [reflexivity |].
  destruct (untouched_save_sends_status bare_task (mount sample_env))
    as (c & Hn & Hc & _).
  - simpl. lia.
  - reflexivity.
  - exists c. split; [exact Hn |].
    intros Ht. apply Hc in Ht. discriminate.
Defined.

(** ** App *)

(** The matching at work: case and trailing slashes are ignored, nothing
    else is. *)
Lemma route_matching_examples :
  route "/LOGIN" false = LoginPage
  /\ route "/login/" false = LoginPage
  /\ route "/Dashboard//" true = DashboardPage
  /\ route "//" true = HomePage
  /\ route "/loginx" false = NoMatch
  /\ route "/login/x" false = NoMatch
  /\ route "login" false = NoMatch.
Proof. repeat split. Qed.

Lemma matches_second c base pathname :
  matches_from (String "/"%char (String c base)) pathname = true ->
  second_lower pathname = Some (ascii_lower c).
Proof.
  destruct pathname as [| c1 [| c2 rest]]; simpl; try done.
  - by rewrite andb_false_r.
  - intros H. apply andb_true_iff in H as [_ H].
    apply andb_true_iff in H as [H _]. apply Ascii.eqb_eq in H. by rewrite H.
Qed.

Lemma matches_root_second pathname :
  matchPath "/" pathname = true ->
  second_lower pathname = None \/ second_lower pathname = Some "/"%char.
Proof.
  unfold matchPath. simpl.
  destruct pathname as [| c1 [| c2 rest]]; simpl; auto.
  intros H. apply andb_true_iff in H as [_ H].
  apply andb_true_iff in H as [H _]. apply Ascii.eqb_eq in H. subst c2. by right.
Qed.

Lemma route_dashboard path authenticated :
  matchPath "/dashboard" path = true ->
  route path authenticated
  = if authenticated then DashboardPage else NavigateTo "/login".
Proof.
  intros H. unfold route. rewrite H.
  pose proof (matches_second _ _ _ H) as Hs.
  destruct (matchPath "/" path) eqn:H0.
  { apply matches_root_second in H0 as [H0 | H0]; rewrite Hs in H0; done. }
  destruct (matchPath "/login" path) eqn:H1.
  { apply matches_second in H1. rewrite Hs in H1. done. }
  destruct (matchPath "/signup" path) eqn:H2.
  { apply matches_second in H2. rewrite Hs in H2. done. }
  destruct (matchPath "/forgot-password" path) eqn:H3.
  { apply matches_second in H3. rewrite Hs in H3. done. }
  destruct (matchPath "/reset-password" path) eqn:H4.
  { apply matches_second in H4. rewrite Hs in H4. done. }
  reflexivity.
Qed.

Lemma route_login path authenticated :
  matchPath "/login" path = true ->
  route path authenticated
  = if authenticated then NavigateTo "/dashboard" else LoginPage.
Proof.
  intros H. unfold route. rewrite H.
  pose proof (matches_second _ _ _ H) as Hs.
  destruct (matchPath "/" path) eqn:H0; [| reflexivity].
  apply matches_root_second in H0 as [H0 | H0]; rewrite Hs in H0; done.
Qed.

(** X15.  The route table never ends on a redirect.  The Dashboard is
    shown exactly when the session is authenticated and the pathname
    matches "/dashboard" or "/login", and the login page exactly when the
    session is not authenticated and the pathname matches one of these
    two, a pathname matching a path up to the case of its letters and up
    to trailing slashes. *)
Theorem route_guards path authenticated :
  (forall target, page_shown path authenticated <> NavigateTo target)
  /\ (page_shown path authenticated = DashboardPage
      <-> authenticated = true
          /\ (matchPath "/dashboard" path = true
              \/ matchPath "/login" path = true))
  /\ (page_shown path authenticated = LoginPage
      <-> authenticated = false
          /\ (matchPath "/login" path = true
              \/ matchPath "/dashboard" path = true)).
Proof.
  assert (Rl : route "/login" false = LoginPage) by reflexivity.
  assert (Rd : route "/dashboard" true = DashboardPage) by reflexivity.
  destruct (matchPath "/dashboard" path) eqn:Hd.
  { unfold page_shown. rewrite (route_dashboard _ _ Hd).
    destruct authenticated; rewrite ?Rl; intuition congruence. }
  destruct (matchPath "/login" path) eqn:Hl.
  { unfold page_shown. rewrite (route_login _ _ Hl).
    destruct authenticated; rewrite ?Rd; intuition congruence. }
  unfold page_shown, route. rewrite Hd, Hl.
  repeat case_match; intuition congruence.
Qed.

(** X16.  After a login success, a logout or a storage event, the session
    flag says whether a non-empty token is stored, so that "/dashboard"
    shows the Dashboard exactly when one is, and "/login" the login page
    exactly when none is. *)
Theorem app_session_follows_storage a e :
  let e' := app_action a e in
  session_consistent e'
  /\ (page_shown "/dashboard" (isAuthenticated e') = DashboardPage
      <-> truthy_opt (getItem "token" e') = true)
  /\ (page_shown "/login" (isAuthenticated e') = LoginPage
      <-> truthy_opt (getItem "token" e') = false).
Proof.
  intros e'.
  assert (H : session_consistent e') by (by destruct a).
  split; [exact H |]. rewrite <- H.
  destruct (isAuthenticated e'); simpl; split; split; done.
Qed.

(** ** Login *)

(** X17.  A login attempt either fails, leaving the environment as it was
    and a message in the error slot, or succeeds on a non-empty token: the
    token is stored, the session flag is set, the Dashboard is navigated
    to (twice: by [onLoginSuccess] and by [handleSubmit]) and shown, and
    the error slot is empty. *)
Theorem login_all_or_nothing eng o st e :
  let r := Login_handleSubmit eng o st e in
  (snd r = e /\ exists m, fst r = setLoginError (Some m) st)
  \/ (exists token,
        truthy_string token = true
        /\ fst r = setLoginError None st
        /\ snd r = Login_store token st e
        /\ getItem "token" (snd r) = Some token
        /\ isAuthenticated (snd r) = true
        /\ nav (snd r) = nav e ++ ["/dashboard"; "/dashboard"]
        /\ page_shown "/dashboard" (isAuthenticated (snd r)) = DashboardPage).
Proof.
  unfold Login_handleSubmit. cbv zeta.
  destruct o as [msg | r]; simpl; [left; eauto |].
  destruct (auth_ok r); simpl; [| left; eauto].
  destruct (auth_json r) as [msg | [| | token message]]; simpl;
    try solve [left; eauto].
  destruct token as [token |]; simpl; [| left; eauto].
  destruct (truthy_string token) eqn:E; simpl; [| left; eauto].
  right. exists token. split; [exact E |].
  split; [reflexivity |]. split; [reflexivity |].
  unfold Login_store, handleLoginSuccess, updateAuthStatus, getItem. simpl.
  destruct (rememberMe st); simpl.
  - rewrite !lookup_insert_ne by done. rewrite !lookup_insert_eq. simpl.
    rewrite E, <- app_assoc. by repeat split.
  - rewrite !lookup_delete_ne by done. rewrite !lookup_insert_eq. simpl.
    rewrite E, <- app_assoc. by repeat split.
Qed.

(** X18.  After a successful login the remembered identifier is the
    email typed if "remember me" was ticked and is absent otherwise
    (whatever was remembered before), no other key but the token has
    changed, and after the next logout the login form mounts prefilled and
    ticked exactly when a non-empty email was remembered. *)
Theorem login_remember_me eng r token message st e :
  auth_ok r = true ->
  auth_json r = AuthParsedJson (AObj (Some token) message) ->
  token <> "" ->
  let e' := snd (Login_handleSubmit eng (AuthResponds r) st e) in
  getItem "token" e' = Some token
  /\ getItem "rememberedEmail" e'
     = (if rememberMe st then Some (email st) else None)
  /\ (forall k, k <> "token" -> k <> "rememberedEmail" ->
        getItem k e' = getItem k e)
  /\ Login_mount (handleLogout e')
     = (if rememberMe st && truthy_string (email st)
        then {| email := email st; password := "";
                rememberMe := true; login_error := None |}
        else Login_initial).
Proof.
  intros Hok Hj Hne e'.
  assert (He : e' = Login_store token st e).
  { unfold e', Login_handleSubmit. simpl. rewrite Hok, Hj. simpl.
    by apply truthy_string_nonempty in Hne as ->. }
  assert (Hr : getItem "rememberedEmail" e'
               = (if rememberMe st then Some (email st) else None)).
  { rewrite He. unfold Login_store, getItem. simpl.
    destruct (rememberMe st); simpl.
    - apply lookup_insert_eq.
    - apply lookup_delete_eq. }
  split; [| split; [exact Hr | split]].
  - rewrite He. unfold Login_store, getItem. simpl.
    destruct (rememberMe st); simpl.
    + rewrite lookup_insert_ne by done. apply lookup_insert_eq.
    + rewrite lookup_delete_ne by done. apply lookup_insert_eq.
  - intros k Hk1 Hk2. rewrite He. unfold Login_store, getItem. simpl.
    destruct (rememberMe st); simpl.
    + by rewrite !lookup_insert_ne.
    + rewrite lookup_delete_ne by done. by rewrite lookup_insert_ne.
  - unfold Login_mount.
    replace (getItem "rememberedEmail" (handleLogout e'))
      with (getItem "rememberedEmail" e').
    2:{ unfold getItem. simpl. by rewrite lookup_delete_ne. }
    rewrite Hr. destruct (rememberMe st); simpl; [| done].
    by destruct (truthy_string (email st)).
Qed.

Lemma login_remember_me_witness :
  Login_mount (handleLogout
     (snd (Login_handleSubmit sample_engine (login_ok "abc") ann logged_out_env)))
  = {| email := "ann@example.org"; password := "";
       rememberMe := true; login_error := None |}
  /\ Login_mount (handleLogout
       (snd (Login_handleSubmit sample_engine (login_ok "abc") bob logged_out_env)))
     = Login_initial.
Proof.
  split.
  - destruct (login_remember_me sample_engine
      {| auth_status := 200; auth_statusText := "OK";
         auth_content_type := Some "application/json"; auth_text := "";
         auth_json := AuthParsedJson (AObj (Some "abc") None) |}
      "abc" None ann logged_out_env) as (_ & _ & _ & H);
      [reflexivity | reflexivity | discriminate | exact H].
  - destruct (login_remember_me sample_engine
      {| auth_status := 200; auth_statusText := "OK";
         auth_content_type := Some "application/json"; auth_text := "";
         auth_json := AuthParsedJson (AObj (Some "abc") None) |}
      "abc" None bob logged_out_env) as (_ & _ & _ & H);
      [reflexivity | reflexivity | discriminate | exact H].
Defined.

(** *** Witnesses *)

Lemma failed_call_shows_message_witness :
  exists w', fetchWithAuth_settle (FetchRejects "") loaded
             = (w', Rejected "")
             /\ error w' = Some msg_generic.
Proof.
  assert (H : exists w', fetchWithAuth_settle (FetchRejects "") loaded
                         = (w', Rejected "")).
  { eexists. reflexivity. }
  destruct H as [w' H]. exists w'. split; [exact H |].
  destruct (failed_call_shows_message (FetchRejects "") loaded w' "" H)
    as (m & Hm & _ & _ & Hg & _).
  - discriminate.
  - rewrite Hm. f_equal. by apply Hg.
Defined.

Lemma dashboard_storage_frame_witness :
  let w := run sample_run (fetchTasks FromEffect (mount sample_env)) in
  getItem "token" (env w) = None
  /\ getItem "rememberedEmail" (env w) = None
  /\ isAuthenticated (env w) = true.
Proof.
  intros w.
  destruct (dashboard_storage_frame sample_run
              (fetchTasks FromEffect (mount sample_env)))
    as (Hk & _ & Ha).
  - unfold sample_run. repeat constructor.
  - split; [reflexivity |]. split.
    + unfold w. rewrite Hk by discriminate. reflexivity.
    + unfold w. rewrite Ha. reflexivity.
Defined.

Lemma requests_bear_a_token_witness :
  Forall bearer_present
    (net (env (run sample_run (fetchTasks FromEffect (mount sample_env))))).
Proof.
  apply (requests_bear_a_token sample_run
           (fetchTasks FromEffect (mount sample_env))).
  repeat constructor.
Defined.

Lemma busy_flag_tracks_flight_witness :
  let w := run sample_run (fetchTasks FromEffect (mount sample_env)) in
  isLoading w = true <-> pending (env w) <> [].
Proof.
  apply (busy_flag_tracks_flight sample_run sample_env). reflexivity.
Defined.


(** ** The create form, from typing to sending *)

(** X10.  Typing a non-empty title, a description and choosing a status in
    the create form, then submitting it while idle and with a token
    stored, sends one POST to /tasks with exactly those texts and with
    [completed] true exactly for the choice "Completed"; the collection is
    not touched, the busy flag is set and the message slot cleared. *)
Theorem create_form_sends_typed title description o w :
  isLoading w = false ->
  title <> "" ->
  truthy_opt (getItem "token" (env w)) = true ->
  let w' := dispatch SubmitCreateForm
              (dispatch (ChangeNewStatus o)
                 (dispatch (ChangeNewDescription description)
                    (dispatch (ChangeNewTitle title) w))) in
  net (env w')
  = net (env w)
    ++ [{| req_method := POST; req_url := TasksUrl;
           req_bearer := default "" (getItem "token" (env w));
           req_body :=
             Some {| body_title := title;
                     body_description := Some description;
                     body_completed := match o with
                                       | OptCompleted => true
                                       | OptPending => false
                                       end |} |}]
  /\ tasks w' = tasks w
  /\ isLoading w' = true
  /\ error w' = None.
Proof.
  intros Hl Ht Htok w'. unfold w'. simpl. rewrite Hl.
  apply String.eqb_neq in Ht. rewrite Ht.
  unfold handleCreateTask. rewrite call_with_token by exact Htok.
  simpl. by destruct o.
Qed.

Lemma create_form_sends_typed_witness :
  net (env (dispatch SubmitCreateForm
              (dispatch (ChangeNewStatus OptCompleted)
                 (dispatch (ChangeNewDescription "d")
                    (dispatch (ChangeNewTitle "t") loaded)))))
  = net (env loaded)
    ++ [{| req_method := POST; req_url := TasksUrl; req_bearer := "abc";
           req_body := Some {| body_title := "t";
                               body_description := Some "d";
                               body_completed := true |} |}].
Proof.
  destruct (create_form_sends_typed "t" "d" OptCompleted loaded)
    as (H & _); [reflexivity | discriminate | reflexivity | exact H].
Defined.

(** ** A stale session flag *)

Lemma remount_no_token e :
  truthy_opt (getItem "token" e) = false ->
  remount e = navigate "/login" e.
Proof.
  intros E. unfold remount, fetchTasks.
  rewrite call_without_token by exact E. reflexivity.
Qed.

(** X14.  With the token gone while the session flag of [App] is still
    set, every mount of the Dashboard asks for the login view, issues no
    request and leaves storage and flag as they are, so that the guard of
    "/login" shows the Dashboard again: [n] mounts give [n] navigations. *)
Theorem stale_flag_keeps_dashboard n e :
  truthy_opt (getItem "token" e) = false ->
  isAuthenticated e = true ->
  let e' := Nat.iter n remount e in
  nav e' = nav e ++ replicate n "/login"
  /\ net e' = net e
  /\ localStorage e' = localStorage e
  /\ isAuthenticated e' = true
  /\ page_shown "/login" (isAuthenticated e') = DashboardPage.
Proof.
  intros Ht Ha. simpl.
  assert (H : nav (Nat.iter n remount e) = nav e ++ replicate n "/login"
              /\ net (Nat.iter n remount e) = net e
              /\ localStorage (Nat.iter n remount e) = localStorage e
              /\ isAuthenticated (Nat.iter n remount e) = true).
  { induction n as [| n (Hn & Hr & Hs & Hf)]; simpl.
    - by rewrite app_nil_r.
    - rewrite remount_no_token.
      + simpl. rewrite Hn, Hr, Hs, Hf. repeat split.
        rewrite <- app_assoc. f_equal.
        change ("/login" :: replicate n "/login")
          with (replicate (S n) "/login").
        by rewrite replicate_S_end.
      + unfold getItem. rewrite Hs. exact Ht. }
  destruct H as (Hn & Hr & Hs & Hf). rewrite Hf. by repeat split.
Qed.

Lemma stale_flag_keeps_dashboard_witness :
  nav (Nat.iter 3 remount (env expired))
  = nav (env expired) ++ ["/login"; "/login"; "/login"].
Proof.
  destruct (stale_flag_keeps_dashboard 3 (env expired)) as (H & _);
    [reflexivity | reflexivity | exact H].
Defined.

(** ** Signup *)

(** X19.  A signup sends its request exactly when the two passwords are
    equal; it never touches the storage or the session flag; and it either
    ends with no error and one navigation to the login view, the request
    having been answered 2xx, or with an error message and the environment
    as it was. *)
Theorem signup_outcomes eng o st e :
  let res := Signup_handleSubmit eng o st e in
  let st' := fst (fst res) in
  let e' := snd (fst res) in
  let sent := snd res in
  (is_Some sent <-> su_password st = su_confirmPassword st)
  /\ localStorage e' = localStorage e
  /\ isAuthenticated e' = isAuthenticated e
  /\ ((su_error st' = None /\ nav e' = nav e ++ ["/login"] /\ is_Some sent
       /\ exists r, o = AuthResponds r /\ auth_ok r = true)
      \/ ((exists m, su_error st' = Some m) /\ e' = e)).
Proof.
  unfold Signup_handleSubmit. simpl.
  destruct (String.eqb_spec (su_password st) (su_confirmPassword st))
    as [Heq | Hne]; simpl.
  - destruct o as [msg | r]; simpl.
    + repeat split; eauto.
    + destruct (auth_ok r) eqn:Hok; simpl.
      * repeat split; eauto. left. repeat split; eauto.
      * repeat split; eauto.
  - repeat split; eauto.
    + by intros [? ?].
    + done.
Qed.

(** ** ResetPassword *)

Ltac close_case :=
  repeat split; try done; eauto;
  try (by intros; split);
  try (intros [_ ?]; lia);
  try (by intros [? _]);
  try (by intros [? ?]);
  try (by intros ? [= <-]).

(** X20.  A password reset sends its request exactly when the two
    passwords are equal and at least 6 long, with the token and both
    passwords as its body; otherwise nothing is scheduled, no success
    message is set and the error is not empty. *)
Theorem reset_validates_locally o st :
  let res := ResetPassword_handleSubmit o st in
  (is_Some (rr_sent res)
   <-> rp_password st = rp_confirmPassword st
       /\ (6 <= String.length (rp_password st))%nat)
  /\ (forall d, rr_sent res = Some d ->
        d = {| rd_token := rp_token st; rd_password := rp_password st;
               rd_confirmPassword := rp_confirmPassword st |})
  /\ (rr_sent res = None ->
        rr_scheduled res = None /\ rp_message (rr_state res) = Some ""
        /\ rp_error (rr_state res) <> "").
Proof.
  unfold ResetPassword_handleSubmit. simpl.
  destruct (String.eqb_spec (rp_password st) (rp_confirmPassword st))
    as [Heq | Hne]; simpl; [| close_case].
  destruct (Nat.ltb_spec (String.length (rp_password st)) 6); simpl;
    [close_case |].
  destruct o as [msg | r]; simpl; [close_case |].
  destruct (auth_ok r); simpl; [| close_case].
  destruct (auth_json r) as [? | [| |]]; simpl; close_case.
Qed.

(** X21.  After a password reset is submitted, a success message and an
    error are never shown together; the only navigation ever scheduled is
    to the login view, and it is scheduled exactly when the error is empty,
    which needs a request answered 2xx. *)
Theorem reset_message_or_error o st :
  let res := ResetPassword_handleSubmit o st in
  (truthy_opt (rp_message (rr_state res)) = true ->
     rp_error (rr_state res) = "")
  /\ (rr_scheduled res = None \/ rr_scheduled res = Some "/login")
  /\ (rr_scheduled res = Some "/login" <->
        rp_error (rr_state res) = "")
  /\ (rr_scheduled res = Some "/login" ->
        is_Some (rr_sent res)
        /\ exists r, o = AuthResponds r /\ auth_ok r = true).
Proof.
  unfold ResetPassword_handleSubmit. simpl.
  destruct (String.eqb _ _); simpl;
    [| repeat split; intros; try done; by left].
  destruct (_ <? _)%nat; simpl;
    [repeat split; intros; try done; by left |].
  destruct o as [msg | r]; simpl;
    [repeat split; intros; try done; by left |].
  destruct (auth_ok r) eqn:Hok; simpl.
  - destruct (auth_json r) as [? | [| |]]; simpl;
      repeat split; intros; try done; eauto; try (by left); by right.
  - assert (Hm : Reset_failure_message r <> "").
    { unfold Reset_failure_message.
      destruct (auth_json r) as [? | [| | ? [m |]]]; simpl; try done.
      unfold truthy_string. by destruct (String.eqb_spec m ""). }
    repeat split; intros; try done; by left.
Qed.
